(** * Heart-disease prediction app: a shallow embedding of
      [02.streamlit_app_new.py] and the properties of its core logic.

    The script is modelled as the source has it:
    - Python values that flow through the app (class labels, cells of a
      dataframe) are a tagged union [pyval] of scalars; Python floats are
      IEEE binary64, modelled by Rocq's primitive floats; a probability
      array has the width of its elements (float64 or float32) and the
      NumPy that made it, which decide how [proba * 100] is computed;
    - exceptions are values of type [exn]; fallible calls return
      [result]; a script run writes to the page (a list of [ui_event]) and
      touches the outside world (a list of [io_event]), threaded by a small
      state/error monad [M]; the frame bound to [df] is part of the state,
      since the batch tab changes it in place;
    - the process-wide cache behind [@st.cache_resource] is explicit state
      ([Process]);
    - the predictor is opaque: [predict] and [predict_proba] are functions
      of the frame they are handed, returning an array or raising;
    - layout (tabs, columns, the form and its input widgets) is not
      modelled: the widgets' values are inputs of a run; a call that
      writes an element to the page is taken to return: an exception
      raised by Streamlit while it draws an element is outside the model;
    - paths follow POSIX [os.path.join]; text is modelled as UTF-8 byte
      strings, so [.encode('utf-8')] is the identity on the model. *)

From Stdlib Require Import ZArith List String Ascii Bool Lia PeanoNat.
From Stdlib Require Import DecimalString DecimalPos DecimalZ.
From Stdlib Require Import Floats.
Import ListNotations.

Local Open Scope string_scope.
Local Open Scope list_scope.

(* ===================================================================== *)
(** ** Python values, exceptions, results *)
(* ===================================================================== *)

(** Scalars the app handles: ints, floats, strings and bools. *)
Inductive pyval : Type :=
| VInt (z : Z)
| VFloat (f : float)
| VStr (s : string)
| VBool (b : bool).

(** [str(n)] for a natural number and for an integer. *)
Definition str_nat (n : nat) : string := NilZero.string_of_uint (Nat.to_uint n).

Definition str_Z (z : Z) : string := NilZero.string_of_int (Z.to_int z).

(** Exceptions (all subclasses of [Exception]) with what they carry:
    a [KeyError] whose key is a str, NumPy's [IndexError] for an index out
    of bounds, a [ValueError] and its message, a [NameError] and the name,
    and [ModelError msg] for an exception of any other kind raised by code
    outside the script (the predictor, joblib, pandas), given by the text
    [msg] that [str] makes of it; a [KeyError] whose key is not a str is
    of that kind. *)
Inductive exn : Type :=
| KeyError (key : string)
| IndexError (index axis size : nat)
| ValueError (msg : string)
| NameError (name : string)
| ModelError (msg : string).

Definition dquote_char : ascii := ascii_of_nat 34.

Definition backslash : ascii := ascii_of_nat 92.

(** The character [c] occurs in [s]. *)
Fixpoint occurs (c : ascii) (s : string) : bool :=
  match s with
  | EmptyString => false
  | String a rest => Ascii.eqb a c || occurs c rest
  end.

Definition hex_digit (n : nat) : ascii :=
  nth n ["0"; "1"; "2"; "3"; "4"; "5"; "6"; "7"; "8"; "9";
         "a"; "b"; "c"; "d"; "e"; "f"]%char "0"%char.

(** The quote [repr] puts around a str: an apostrophe, unless the str
    holds an apostrophe and no double quote. *)
Definition repr_quote (s : string) : ascii :=
  if occurs "'"%char s && negb (occurs dquote_char s)
  then dquote_char else "'"%char.

(** One character inside [repr]: the quote in use and the backslash are
    escaped, tab, line feed and carriage return have their letters, the
    other control characters their hexadecimal code. Bytes above 127, the
    UTF-8 of characters outside ASCII, are kept, as Python keeps every
    printable character. *)
Definition repr_char (quote c : ascii) : string :=
  let n := nat_of_ascii c in
  if Ascii.eqb c quote || Ascii.eqb c backslash
  then String backslash (String c EmptyString)
  else if Nat.eqb n 9 then String backslash "t"
  else if Nat.eqb n 10 then String backslash "n"
  else if Nat.eqb n 13 then String backslash "r"
  else if Nat.ltb n 32 || Nat.eqb n 127
  then String backslash
         (String "x" (String (hex_digit (n / 16))
                        (String (hex_digit (n mod 16)) EmptyString)))
  else String c EmptyString.

Fixpoint repr_chars (quote : ascii) (s : string) : string :=
  match s with
  | EmptyString => EmptyString
  | String c rest => repr_char quote c ++ repr_chars quote rest
  end.

(** [repr(s)] for a str. *)
Definition py_repr (s : string) : string :=
  let quote := repr_quote s in
  String quote (repr_chars quote s ++ String quote EmptyString).

(** [str(e)], as interpolated by the f-strings of the source. The text of
    a [KeyError] is the [repr] of its key. *)
Definition exn_str (e : exn) : string :=
  match e with
  | KeyError k => py_repr k
  | IndexError i a n =>
      "index " ++ str_nat i ++ " is out of bounds for axis " ++ str_nat a
      ++ " with size " ++ str_nat n
  | ValueError m => m
  | NameError n => "name '" ++ n ++ "' is not defined"
  | ModelError m => m
  end.

Inductive result (A : Type) : Type :=
| Ok (a : A)
| Raise (e : exn).
Arguments Ok {A} a.
Arguments Raise {A} e.

(* ===================================================================== *)
(** ** os.path (POSIX) *)
(* ===================================================================== *)

Module Path.

Definition sep : string := "/".

Definition startswith (p s : string) : bool := String.prefix p s.

Fixpoint endswith_sep (s : string) : bool :=
  match s with
  | EmptyString => false
  | String c EmptyString => Ascii.eqb c "/"%char
  | String _ rest => endswith_sep rest
  end.

Definition is_empty (s : string) : bool :=
  match s with EmptyString => true | _ => false end.

(** One step of the loop of [posixpath.join]: an absolute component
    resets the path; otherwise it is appended, with a separator unless
    the path so far is empty or already ends with one. *)
Definition join_step (path b : string) : string :=
  if startswith sep b then b
  else if is_empty path || endswith_sep path then path ++ b
  else path ++ sep ++ b.

(** [os.path.join(a, *p)]. *)
Definition join (a : string) (p : list string) : string :=
  fold_left join_step p a.

End Path.

(* ===================================================================== *)
(** ** The outside world and the page *)
(* ===================================================================== *)

(** A dataframe: the length of its index and its columns in order, each a
    name and its cells. *)
Record DataFrame : Type := mkDF {
  df_index : nat;
  df_columns : list (string * list pyval)
}.

(** The width of the elements of an array of floats. *)
Inductive dtype : Type := Float64 | Float32.

(** The promotion rules of the NumPy that made an array: when a scalar
    meets a Python int, NumPy 2 keeps the width of the scalar and NumPy 1
    widens to float64. *)
Inductive numpy : Type := NumPy1 | NumPy2.

(** A two-dimensional array of floats ([predict_proba]'s result): the
    NumPy it belongs to, the width of its elements, its second dimension
    and its rows, each element held by its exact value. *)
Record ndarray2 : Type := mkArray {
  arr_numpy : numpy;
  arr_dtype : dtype;
  arr_ncols : nat;
  arr_rows : list (list float)
}.

(** An array of float64, as scikit-learn's estimators return. *)
Definition mkArr (ncols : nat) (rows : list (list float)) : ndarray2 :=
  mkArray NumPy2 Float64 ncols rows.

(** A predictor object: [predict] always, [predict_proba] when
    [hasattr(model, "predict_proba")]. *)
Record Predictor : Type := mkPredictor {
  predict : DataFrame -> result (list pyval);
  predict_proba : option (DataFrame -> result ndarray2)
}.

(** A predictor instance on the heap: its identity and its behaviour. *)
Record Model : Type := mkModel {
  model_id : nat;
  model_obj : Predictor
}.

(** What a run finds outside the process: which paths exist
    ([os.path.exists]) and what unpickling a path gives ([joblib.load]). *)
Record World : Type := mkWorld {
  path_exists : string -> bool;
  unpickle : string -> result Predictor
}.

(** Elements written to the page. *)
Inductive ui_event : Type :=
| st_title (s : string)
| st_subheader (s : string)
| st_error (s : string)
| st_info (s : string)
| st_success (s : string)
| st_write (s : string)
| st_divider
| st_metric (label value : string)
| st_dataframe (df : DataFrame)
| st_download_button (label data file_name mime : string).

(** Calls that leave the script: file-system checks, deserialization and
    calls of the predictor's methods with the frame each one receives. *)
Inductive io_event : Type :=
| io_exists (path : string)
| io_load (path : string)
| io_predict (id : nat) (df : DataFrame)
| io_predict_proba (id : nat) (df : DataFrame).

(** The process-wide slot behind [@st.cache_resource] on [load_model]: the
    value the function returned and the elements it wrote, which Streamlit
    replays on a cache hit. [next_id] is the next free object identity. *)
Record Process : Type := mkProcess {
  cache : option (option Model * list ui_event);
  next_id : nat
}.

(** The state of a script run: the process, the page written so far, the
    outside calls made so far, and the object bound to [df] (mutated in
    place by the batch tab). *)
Record State : Type := mkState {
  proc : Process;
  ui : list ui_event;
  io : list io_event;
  frame : option DataFrame
}.

(** The cache is empty when the process starts. *)
Definition process_start : Process := mkProcess None 0.

Definition run_start (p : Process) : State := mkState p [] [] None.

(** Statements of the script: they change the state and return or raise. *)
Definition M (A : Type) : Type := State -> State * result A.

Definition ret {A} (a : A) : M A := fun s => (s, Ok a).

Definition raise {A} (e : exn) : M A := fun s => (s, Raise e).

Definition bind {A B} (c : M A) (k : A -> M B) : M B :=
  fun s =>
    match c s with
    | (s', Ok a) => k a s'
    | (s', Raise e) => (s', Raise e)
    end.

(** [try: c except Exception as e: h e]. What [c] did before raising
    stays done. *)
Definition try_except {A} (c : M A) (h : exn -> M A) : M A :=
  fun s =>
    match c s with
    | (s', Ok a) => (s', Ok a)
    | (s', Raise e) => h e s'
    end.

Definition emit (e : ui_event) : M unit :=
  fun s => (mkState (proc s) (ui s ++ [e]) (io s) (frame s), Ok tt).

Definition call (e : io_event) : M unit :=
  fun s => (mkState (proc s) (ui s) (io s ++ [e]) (frame s), Ok tt).

Definition lift {A} (r : result A) : M A := fun s => (s, r).

Declare Scope py_scope.
Delimit Scope py_scope with py.
Notation "x <- c ;; k" := (bind c (fun x => k))
  (at level 61, c at next level, right associativity) : py_scope.
Notation "c ;;; k" := (bind c (fun _ => k))
  (at level 61, right associativity) : py_scope.
Local Open Scope py_scope.

(* ===================================================================== *)
(** ** Model Artifact Resolver *)
(* ===================================================================== *)

Definition possible_paths (filename : string) : list string :=
  [ Path.join "models" [filename];
    Path.join "src" [filename];
    filename;
    Path.join ".." ["models"; filename] ].

(** The loop [for path in paths: if os.path.exists(path): return path],
    falling through to [return None]. *)
Fixpoint first_existing (w : World) (paths : list string) : M (option string) :=
  match paths with
  | [] => ret None
  | path :: rest =>
      call (io_exists path) ;;;
      if path_exists w path then ret (Some path) else first_existing w rest
  end.

Definition resolve_model_path (w : World) (filename : string) : M (option string) :=
  first_existing w (possible_paths filename).

(* ===================================================================== *)
(** ** Model Loader *)
(* ===================================================================== *)

Definition model_filename : string := "best_model.pkl".

(** [joblib.load(path)]: reads and deserializes the file; each successful
    call builds a new object. *)
Definition joblib_load (w : World) (path : string) : M Model :=
  call (io_load path) ;;;
  pr <- lift (unpickle w path) ;;
  fun s =>
    let p := proc s in
    (mkState (mkProcess (cache p) (S (next_id p))) (ui s) (io s) (frame s),
     Ok (mkModel (next_id p) pr)).

(** The body of [load_model], without its decorator. [if model_path:] is
    Python truthiness: a path that is not [None] and not empty. *)
Definition load_model_body (w : World) : M (option Model) :=
  model_path <- resolve_model_path w model_filename ;;
  match model_path with
  | Some p =>
      if negb (Path.is_empty p) then
        try_except
          (m <- joblib_load w p ;; ret (Some m))
          (fun e =>
             emit (st_error ("Error loading model: " ++ exn_str e)) ;;;
             ret None)
      else ret None
  | None => ret None
  end.

(** [@st.cache_resource] on a function of no argument: the first call that
    returns stores the returned value (whatever it is) with the elements the
    body wrote; later calls return the stored value, replay the elements and
    do not run the body. A call that raises stores nothing. *)
Definition cache_resource (body : M (option Model)) : M (option Model) :=
  fun s =>
    match cache (proc s) with
    | Some (r, msgs) =>
        (mkState (proc s) (ui s ++ msgs) (io s) (frame s), Ok r)
    | None =>
        match body (mkState (proc s) [] (io s) (frame s)) with
        | (s', Ok r) =>
            (mkState (mkProcess (Some (r, ui s')) (next_id (proc s')))
                     (ui s ++ ui s') (io s') (frame s'), Ok r)
        | (s', Raise e) =>
            (mkState (proc s') (ui s ++ ui s') (io s') (frame s'), Raise e)
        end
    end.

Definition load_model (w : World) : M (option Model) :=
  cache_resource (load_model_body w).

(* ===================================================================== *)
(** ** Dataframes and arrays *)
(* ===================================================================== *)

Definition NaN : pyval := VFloat nan.

(** [pd.DataFrame(d)] for a dict of lists: the lists must agree in length. *)
Definition pd_DataFrame (d : list (string * list pyval)) : result DataFrame :=
  match d with
  | [] => Ok (mkDF 0 [])
  | (_, v) :: _ =>
      if forallb (fun c => Nat.eqb (List.length (snd c)) (List.length v)) d
      then Ok (mkDF (List.length v) d)
      else Raise (ValueError "All arrays must be of the same length")
  end.

Definition column_names (df : DataFrame) : list string :=
  map fst (df_columns df).

Definition has_column (key : string) (df : DataFrame) : bool :=
  existsb (String.eqb key) (column_names df).

(** Writing a column: in place when the name is there, appended last
    otherwise. *)
Definition set_column (key : string) (value : list pyval)
    (cols : list (string * list pyval)) : list (string * list pyval) :=
  if existsb (fun c => String.eqb key (fst c)) cols
  then map (fun c => if String.eqb key (fst c) then (key, value) else c) cols
  else cols ++ [(key, value)].

(** [df[key] = value] for a list-like [value]. A frame with an empty index
    takes its index from a non-empty value, its other columns becoming NaN;
    otherwise the lengths must match. *)
Definition setitem (df : DataFrame) (key : string) (value : list pyval)
    : result DataFrame :=
  if Nat.eqb (df_index df) 0 && negb (Nat.eqb (List.length value) 0) then
    Ok (mkDF (List.length value)
             (set_column key value
                (map (fun c => (fst c, repeat NaN (List.length value)))
                     (df_columns df))))
  else if Nat.eqb (List.length value) (df_index df) then
    Ok (mkDF (df_index df) (set_column key value (df_columns df)))
  else
    Raise (ValueError ("Length of values (" ++ str_nat (List.length value)
                       ++ ") does not match length of index ("
                       ++ str_nat (df_index df) ++ ")")).

(** [df.head()]: the first five rows. *)
Definition head (df : DataFrame) : DataFrame :=
  mkDF (Nat.min 5 (df_index df))
       (map (fun c => (fst c, firstn 5 (snd c))) (df_columns df)).

(** [a[i]] on a one-dimensional array. *)
Definition getitem {A} (a : list A) (i : nat) : result A :=
  match nth_error a i with
  | Some x => Ok x
  | None => Raise (IndexError i 0 (List.length a))
  end.

(** [arr[i]] on a two-dimensional array: its row [i]. *)
Definition arr_row (arr : ndarray2) (i : nat) : result (list float) :=
  getitem (arr_rows arr) i.

Fixpoint column_of (rows : list (list float)) (j : nat) : option (list float) :=
  match rows with
  | [] => Some []
  | r :: rest =>
      match nth_error r j, column_of rest j with
      | Some x, Some xs => Some (x :: xs)
      | _, _ => None
      end
  end.

(** [arr[:, j]]: column [j] of every row. *)
Definition arr_col (arr : ndarray2) (j : nat) : result (list float) :=
  if Nat.ltb j (arr_ncols arr) then
    match column_of (arr_rows arr) j with
    | Some c => Ok c
    | None => Raise (IndexError j 1 (arr_ncols arr))
    end
  else Raise (IndexError j 1 (arr_ncols arr)).

(** The object bound to [df]. *)
Definition get_df : M DataFrame :=
  fun s =>
    match frame s with
    | Some df => (s, Ok df)
    | None => (s, Raise (NameError "df"))
    end.

Definition put_df (df : DataFrame) : M unit :=
  fun s => (mkState (proc s) (ui s) (io s) (Some df), Ok tt).

(** [df[key] = value] on the object bound to [df]. *)
Definition df_setitem (key : string) (value : list pyval) : M unit :=
  df <- get_df ;;
  df' <- lift (setitem df key value) ;;
  put_df df'.

(* ===================================================================== *)
(** ** Python comparisons and formatting *)
(* ===================================================================== *)

Definition Z_of_bool (b : bool) : Z := if b then 1%Z else 0%Z.

(** A float equals an integer when its exact value is that integer. *)
Definition float_eq_Z (f : float) (z : Z) : bool :=
  match Prim2SF f with
  | S754_zero _ => Z.eqb z 0
  | S754_finite s m e =>
      let mag := if Z.leb 0 e then (Zpos m * 2 ^ e)%Z
                 else (Zpos m / 2 ^ (- e))%Z in
      let exact := Z.leb 0 e || Z.eqb (Zpos m mod 2 ^ (- e)) 0 in
      exact && Z.eqb z (if s then (- mag)%Z else mag)
  | _ => false
  end.

(** Python's [==] on scalars: numbers compare by value across int, float
    and bool; a string equals only an equal string. *)
Definition py_eq (a b : pyval) : bool :=
  match a, b with
  | VInt x, VInt y => Z.eqb x y
  | VInt x, VBool c | VBool c, VInt x => Z.eqb x (Z_of_bool c)
  | VInt x, VFloat f | VFloat f, VInt x => float_eq_Z f x
  | VFloat f, VFloat g => PrimFloat.eqb f g
  | VFloat f, VBool c | VBool c, VFloat f => float_eq_Z f (Z_of_bool c)
  | VBool c, VBool d => Bool.eqb c d
  | VStr s, VStr t => String.eqb s t
  | VStr _, _ | _, VStr _ => false
  end.

(** [needle in s] on strings. *)
Fixpoint contains (needle s : string) : bool :=
  String.prefix needle s ||
  match s with
  | EmptyString => false
  | String _ rest => contains needle rest
  end.

(** [n / d] rounded to the nearest integer, ties to even ([0 < d]). *)
Definition round_half_even (n d : Z) : Z :=
  let q := (n / d)%Z in
  let r := (n mod d)%Z in
  if Z.ltb (2 * r) d then q
  else if Z.ltb d (2 * r) then (q + 1)%Z
  else if Z.even q then q else (q + 1)%Z.

(** The magnitude [m * 2^e] in tenths, correctly rounded. *)
Definition tenths (m : positive) (e : Z) : Z :=
  if Z.leb 0 e then (Zpos m * 2 ^ e * 10)%Z
  else round_half_even (Zpos m * 10) (2 ^ (- e)).

Definition sign_text (s : bool) : string := if s then "-" else EmptyString.

(** [format(x, '.1f')]: the exact value of [x] rounded to one decimal. *)
Definition format_1f (x : float) : string :=
  match Prim2SF x with
  | S754_nan => "nan"
  | S754_infinity s => sign_text s ++ "inf"
  | S754_zero s => sign_text s ++ "0.0"
  | S754_finite s m e =>
      let t := tenths m e in
      sign_text s ++ str_Z (t / 10) ++ "." ++ str_Z (t mod 10)
  end.

(* ===================================================================== *)
(** ** Manual Input Encoder *)
(* ===================================================================== *)

(** What the widgets of the form return on a run. *)
Record Form : Type := mkForm {
  age : Z;
  sex_disp : string;
  cp_disp : string;
  trestbps : Z;
  chol : Z;
  fbs_disp : string;
  ecg_disp : string;
  thalach : Z;
  exang_disp : string;
  oldpeak : float;
  slope_disp : string;
  ca : Z;
  thal_disp : string;
  submitted : bool
}.

(** The options each select box offers. *)
Definition sex_options : list string := ["Male"; "Female"].
Definition cp_options : list string :=
  ["Typical Angina (1)"; "Atypical Angina (2)"; "Non-Anginal Pain (3)";
   "Asymptomatic (4)"].
Definition fbs_options : list string := ["False (0)"; "True (1)"].
Definition ecg_options : list string :=
  ["Normal (0)"; "ST-T Abnormality (1)"; "LV Hypertrophy (2)"].
Definition exang_options : list string := ["No (0)"; "Yes (1)"].
Definition slope_options : list string :=
  ["Upsloping (1)"; "Flat (2)"; "Downsloping (3)"].
Definition ca_options : list Z := [0; 1; 2; 3]%Z.
Definition thal_options : list string :=
  ["Normal (3)"; "Fixed Defect (6)"; "Reversible Defect (7)"].

(** The dicts of the source. *)
Definition cp_map : list (string * Z) :=
  [("Typical Angina (1)", 1); ("Atypical Angina (2)", 2);
   ("Non-Anginal Pain (3)", 3); ("Asymptomatic (4)", 4)]%Z.
Definition ecg_map : list (string * Z) :=
  [("Normal (0)", 0); ("ST-T Abnormality (1)", 1); ("LV Hypertrophy (2)", 2)]%Z.
Definition slope_map : list (string * Z) :=
  [("Upsloping (1)", 1); ("Flat (2)", 2); ("Downsloping (3)", 3)]%Z.
Definition thal_map : list (string * Z) :=
  [("Normal (3)", 3); ("Fixed Defect (6)", 6); ("Reversible Defect (7)", 7)]%Z.

(** [d[key]]: a missing key raises [KeyError]. *)
Fixpoint dict_getitem (d : list (string * Z)) (key : string) : result Z :=
  match d with
  | [] => Raise (KeyError key)
  | (k, v) :: rest => if String.eqb key k then Ok v else dict_getitem rest key
  end.

(** The codes computed next to the widgets. *)
Record Codes : Type := mkCodes {
  sex_val : Z;
  cp_val : Z;
  fbs_val : Z;
  ecg_val : Z;
  exang_val : Z;
  slope_val : Z;
  thal_val : Z
}.

Definition result_bind {A B} (r : result A) (k : A -> result B) : result B :=
  match r with
  | Ok a => k a
  | Raise e => Raise e
  end.

(** The three columns of the form, in the order the script runs them. *)
Definition encode (f : Form) : result Codes :=
  let sex_val := if String.eqb (sex_disp f) "Male" then 1%Z else 0%Z in
  result_bind (dict_getitem cp_map (cp_disp f)) (fun cp_val =>
  let fbs_val := if contains "True" (fbs_disp f) then 1%Z else 0%Z in
  result_bind (dict_getitem ecg_map (ecg_disp f)) (fun ecg_val =>
  let exang_val := if contains "Yes" (exang_disp f) then 1%Z else 0%Z in
  result_bind (dict_getitem slope_map (slope_disp f)) (fun slope_val =>
  result_bind (dict_getitem thal_map (thal_disp f)) (fun thal_val =>
  Ok (mkCodes sex_val cp_val fbs_val ecg_val exang_val slope_val thal_val))))).

(** The dict [input_data], keys in insertion order. *)
Definition input_data (f : Form) (c : Codes) : list (string * list pyval) :=
  [ ("Age", [VInt (age f)]);
    ("Sex", [VInt (sex_val c)]);
    ("Chest pain type", [VInt (cp_val c)]);
    ("BP", [VInt (trestbps f)]);
    ("Cholesterol", [VInt (chol f)]);
    ("FBS over 120", [VInt (fbs_val c)]);
    ("EKG results", [VInt (ecg_val c)]);
    ("Max HR", [VInt (thalach f)]);
    ("Exercise angina", [VInt (exang_val c)]);
    ("ST depression", [VFloat (oldpeak f)]);
    ("Slope of ST", [VInt (slope_val c)]);
    ("Number of vessels fluro", [VInt (ca f)]);
    ("Thallium", [VInt (thal_val c)]) ].

(** The encoder as a whole: form selections to the one-row frame handed
    to the model. *)
Definition encode_form (f : Form) : result DataFrame :=
  result_bind (encode f) (fun c => pd_DataFrame (input_data f c)).

(* ===================================================================== *)
(** ** Single-Record Predictor *)
(* ===================================================================== *)

Definition disease_detected : ui_event :=
  st_error "🚨 PREDICTION: HEART DISEASE DETECTED".

Definition normal : ui_event :=
  st_success "✅ PREDICTION: NORMAL".

(** The condition of the verdict branch:
    [prediction == 1 or prediction == "Presence"]. *)
Definition is_positive (prediction : pyval) : bool :=
  py_eq prediction (VInt 1) || py_eq prediction (VStr "Presence").

Definition verdict (prediction : pyval) : ui_event :=
  if is_positive prediction then disease_detected else normal.

(** What [proba] is bound to: the Python float [0.0], or an element of
    the probability array, a NumPy scalar of the array's width. *)
Inductive pyfloat : Type :=
| PyFloat (f : float)
| NpFloat (np : numpy) (dt : dtype) (f : float).

(** The product of two binary32 numbers, rounded to binary32. *)
Definition mul32 (x y : float) : float :=
  SF2Prim (SFmul 24 128 (Prim2SF x) (Prim2SF y)).

(** [proba * 100], as the float that the format sees. The product of a
    Python float or of a float64 scalar is taken in binary64. A float32
    scalar keeps its width under NumPy 2, where the product is taken in
    binary32, and is widened to float64 first under NumPy 1. *)
Definition times_100 (proba : pyfloat) : float :=
  match proba with
  | NpFloat NumPy2 Float32 f => mul32 f 100
  | NpFloat _ _ f | PyFloat f => (f * 100)%float
  end.

(** The f-string of the risk metric. *)
Definition risk_text (proba : pyfloat) : string :=
  "%" ++ format_1f (times_100 proba).

(** [model.predict_proba(input_df)[0][1] if hasattr(model, "predict_proba")
    else 0.0]. *)
Definition single_proba (m : Model) (input_df : DataFrame) : M pyfloat :=
  match predict_proba (model_obj m) with
  | Some pp =>
      call (io_predict_proba (model_id m) input_df) ;;;
      arr <- lift (pp input_df) ;;
      row <- lift (arr_row arr 0) ;;
      p <- lift (getitem row 1) ;;
      ret (NpFloat (arr_numpy arr) (arr_dtype arr) p)
  | None => ret (PyFloat 0)
  end.

(** The body of the [try] of the manual tab, for a predictor whose classes
    are scalars: the calls of the model and the reads of its answers, which
    may raise, then the elements written to the page. *)
Definition single_predict (m : Model) (input_df : DataFrame) : M unit :=
  call (io_predict (model_id m) input_df) ;;;
  preds <- lift (predict (model_obj m) input_df) ;;
  prediction <- lift (getitem preds 0) ;;
  proba <- single_proba m input_df ;;
  emit st_divider ;;;
  emit (st_metric "Risk Score" (risk_text proba)) ;;;
  emit (verdict prediction).

Definition manual_tab (m : Model) (f : Form) : M unit :=
  emit (st_subheader "Enter Patient Details") ;;;
  codes <- lift (encode f) ;;
  if submitted f then
    input_df <- lift (pd_DataFrame (input_data f codes)) ;;
    try_except
      (single_predict m input_df)
      (fun e => emit (st_error ("Prediction Error: " ++ exn_str e)))
  else ret tt.

(* ===================================================================== *)
(** ** Batch Predictor *)
(* ===================================================================== *)

(** Lines 161-165: score the frame bound to [df] and add the columns, in
    place. [predict_proba] is handed the frame as it is by then. A cell of
    the new column holds the value of the probability; the text of a float
    cell in the export is a parameter ([repr_float] below). *)
Definition batch_augment (m : Model) : M unit :=
  df <- get_df ;;
  call (io_predict (model_id m) df) ;;;
  preds <- lift (predict (model_obj m) df) ;;
  df_setitem "Prediction" preds ;;;
  match predict_proba (model_obj m) with
  | Some pp =>
      df1 <- get_df ;;
      call (io_predict_proba (model_id m) df1) ;;;
      arr <- lift (pp df1) ;;
      col <- lift (arr_col arr 1) ;;
      df_setitem "Probability" (map VFloat col)
  | None => ret tt
  end.

(** *** CSV export *)

Definition dquote : string := String dquote_char EmptyString.
Definition LF : string := String (ascii_of_nat 10) EmptyString.

(** Characters that make the writer quote a field: the delimiter, the
    quote character and line breaks (the line terminator is a line feed;
    a carriage return counts as of Python 3.13). *)
Definition special_char (c : ascii) : bool :=
  Ascii.eqb c ","%char || Ascii.eqb c dquote_char
  || Ascii.eqb c (ascii_of_nat 10) || Ascii.eqb c (ascii_of_nat 13).

Fixpoint has_special (s : string) : bool :=
  match s with
  | EmptyString => false
  | String c rest => special_char c || has_special rest
  end.

Fixpoint double_quotes (s : string) : string :=
  match s with
  | EmptyString => EmptyString
  | String c rest =>
      if Ascii.eqb c dquote_char
      then String c (String c (double_quotes rest))
      else String c (double_quotes rest)
  end.

(** [csv.QUOTE_MINIMAL]. *)
Definition quote_minimal (s : string) : string :=
  if has_special s then dquote ++ double_quotes s ++ dquote else s.

(** [writer.writerow(fields)]: fields joined by commas and a line feed; a
    row that would be empty though it has a field is written as a quoted
    empty field. *)
Definition writerow (fields : list string) : string :=
  let line := String.concat "," (map quote_minimal fields) in
  match fields, line with
  | _ :: _, EmptyString => dquote ++ dquote ++ LF
  | _, _ => line ++ LF
  end.

(** Row [i] of a frame. *)
Definition row_cells (df : DataFrame) (i : nat) : list pyval :=
  map (fun c => nth i (snd c) NaN) (df_columns df).

(** [.encode('utf-8')]: text is held as its UTF-8 bytes. *)
Definition encode_utf8 (s : string) : string := s.

(** What the uploader and the button return on a run: no file, or the
    outcome of [pd.read_csv] on the file; whether the button was pressed. *)
Record Upload : Type := mkUpload {
  uploaded_file : option (result DataFrame);
  start_batch : bool
}.

Definition batch_hint : ui_event :=
  st_info "Ensure CSV columns match the training data format (numeric/int).".

Definition app_title : ui_event :=
  st_title "🫀 Heart Disease Prediction App (Kaggle S6E2)".

Definition model_not_found : ui_event :=
  st_error "🚨 Model file (`best_model.pkl`) not found!".

Section BatchExport.

(** The text pandas writes for a float cell that is not NaN, by its value
    (the shortest digits that read back to it), taken as a parameter. *)
Variable repr_float : float -> string.

(** The text of a cell in the CSV: missing values are empty. *)
Definition cell_text (v : pyval) : string :=
  match v with
  | VInt z => str_Z z
  | VFloat f => if PrimFloat.is_nan f then EmptyString else repr_float f
  | VStr s => s
  | VBool b => if b then "True" else "False"
  end.

(** [df.to_csv(index=False)]: the header, then one line per row. *)
Definition to_csv (df : DataFrame) : string :=
  writerow (column_names df)
  ++ String.concat EmptyString
       (map (fun i => writerow (map cell_text (row_cells df i)))
            (seq 0 (df_index df))).

(** Lines 170-171. *)
Definition export (df : DataFrame) : ui_event :=
  let csv := encode_utf8 (to_csv df) in
  st_download_button "Download Results" csv "predictions.csv" "text/csv".

(** The body of the inner [try] of the batch tab: the scoring lines, which
    may raise, then the elements written to the page. *)
Definition batch_analysis (m : Model) : M unit :=
  batch_augment m ;;;
  emit (st_success "Analysis Completed!") ;;;
  df <- get_df ;;
  emit (st_dataframe (head df)) ;;;
  emit (export df).

Definition batch_tab (m : Model) (u : Upload) : M unit :=
  emit (st_subheader "Batch Prediction") ;;;
  match uploaded_file u with
  | Some read_csv =>
      try_except
        (df <- lift read_csv ;;
         put_df df ;;;
         emit (st_write "Uploaded Data Preview:") ;;;
         emit (st_dataframe (head df)) ;;;
         if start_batch u then
           try_except
             (batch_analysis m)
             (fun e =>
                emit (st_error ("Error: " ++ exn_str e)) ;;;
                emit batch_hint)
         else ret tt)
        (fun _ => emit (st_error "Could not read file."))
  | None => ret tt
  end.

(* =================================================================== *)
(** ** Main app *)
(* =================================================================== *)

Definition main (w : World) (f : Form) (u : Upload) : M unit :=
  emit app_title ;;;
  model <- load_model w ;;
  match model with
  | None => emit model_not_found
  | Some m =>
      manual_tab m f ;;;
      batch_tab m u
  end.

(** One run of the script in a process. *)
Definition script_run (w : World) (f : Form) (u : Upload) (p : Process)
    : State * result unit :=
  main w f u (run_start p).

End BatchExport.

(** Successive runs of the script in one process, each in the world and
    with the inputs of its time. *)
Record RunInput : Type := mkRun {
  run_world : World;
  run_form : Form;
  run_upload : Upload
}.

Definition script_run_on (repr_float : float -> string) (i : RunInput)
    (p : Process) : State * result unit :=
  script_run repr_float (run_world i) (run_form i) (run_upload i) p.

Fixpoint script_runs (repr_float : float -> string) (inputs : list RunInput)
    (p : Process) : Process :=
  match inputs with
  | [] => p
  | i :: rest =>
      script_runs repr_float rest (proc (fst (script_run_on repr_float i p)))
  end.

(* ===================================================================== *)
(** ** Vocabulary of the specification *)
(* ===================================================================== *)

(** The candidate paths as the specification lists them. *)
Definition documented_paths (filename : string) : list string :=
  [ ("models/" ++ filename)%string; ("src/" ++ filename)%string; filename;
    ("../models/" ++ filename)%string ].

(** The paths a search looks at: up to and including the first that
    exists. *)
Fixpoint checked_paths (w : World) (paths : list string) : list string :=
  match paths with
  | [] => []
  | p :: rest => p :: (if path_exists w p then [] else checked_paths w rest)
  end.

(** A state after more outside calls and nothing else. *)
Definition with_io (s : State) (events : list io_event) : State :=
  mkState (proc s) (ui s) (io s ++ events) (frame s).

(** A state after more elements on the page and nothing else. *)
Definition with_ui (s : State) (events : list ui_event) : State :=
  mkState (proc s) (ui s ++ events) (io s) (frame s).

(** The state of a run whose [df] is bound to a frame. *)
Definition with_frame (s : State) (df : DataFrame) : State :=
  mkState (proc s) (ui s) (io s) (Some df).

(** What the batch tab shows of an upload before any analysis. *)
Definition batch_preview (df : DataFrame) : list ui_event :=
  [st_subheader "Batch Prediction"; st_write "Uploaded Data Preview:";
   st_dataframe (head df)].

(** The report of a failed batch analysis: the error and the hint. *)
Definition batch_report (e : exn) : list ui_event :=
  [st_error ("Error: " ++ exn_str e); batch_hint].

(** A world with the given files and nothing to unpickle. *)
Definition world_with_files (files : list string) : World :=
  mkWorld (fun p => existsb (String.eqb p) files)
          (fun _ => Raise (ModelError "invalid load key")).

(** Calls that read the file system or deserialize the artifact. *)
Definition file_io (e : io_event) : bool :=
  match e with
  | io_exists _ | io_load _ => true
  | io_predict _ _ | io_predict_proba _ _ => false
  end.

(** A statement that leaves the process alone and, outside the script,
    only calls the predictor. *)
Definition inference_only {A} (c : M A) : Prop :=
  forall s,
    proc (fst (c s)) = proc s /\
    exists events,
      io (fst (c s)) = io s ++ events /\ existsb file_io events = false.

(** The report of a failed deserialization. *)
Definition load_error (e : exn) : ui_event :=
  st_error ("Error loading model: " ++ exn_str e).

(** *** The documented domain-to-code mapping

    The categorical inputs as closed enumerations, each with the label its
    select box shows and the numeric code the feature table documents. *)

Inductive Sex : Type := Male | Female.
Inductive ChestPain : Type :=
  TypicalAngina | AtypicalAngina | NonAnginalPain | Asymptomatic.
Inductive FastingBS : Type := FbsFalse | FbsTrue.
Inductive RestingECG : Type := EcgNormal | STTAbnormality | LVHypertrophy.
Inductive ExerciseAngina : Type := AnginaNo | AnginaYes.
Inductive SlopeST : Type := Upsloping | Flat | Downsloping.
Inductive Thallium : Type := ThalNormal | FixedDefect | ReversibleDefect.

Definition sex_label (x : Sex) : string :=
  match x with Male => "Male" | Female => "Female" end.
Definition sex_code (x : Sex) : Z :=
  match x with Male => 1 | Female => 0 end.

Definition cp_label (x : ChestPain) : string :=
  match x with
  | TypicalAngina => "Typical Angina (1)"
  | AtypicalAngina => "Atypical Angina (2)"
  | NonAnginalPain => "Non-Anginal Pain (3)"
  | Asymptomatic => "Asymptomatic (4)"
  end.
Definition cp_code (x : ChestPain) : Z :=
  match x with
  | TypicalAngina => 1 | AtypicalAngina => 2
  | NonAnginalPain => 3 | Asymptomatic => 4
  end.

Definition fbs_label (x : FastingBS) : string :=
  match x with FbsFalse => "False (0)" | FbsTrue => "True (1)" end.
Definition fbs_code (x : FastingBS) : Z :=
  match x with FbsFalse => 0 | FbsTrue => 1 end.

Definition ecg_label (x : RestingECG) : string :=
  match x with
  | EcgNormal => "Normal (0)"
  | STTAbnormality => "ST-T Abnormality (1)"
  | LVHypertrophy => "LV Hypertrophy (2)"
  end.
Definition ecg_code (x : RestingECG) : Z :=
  match x with EcgNormal => 0 | STTAbnormality => 1 | LVHypertrophy => 2 end.

Definition exang_label (x : ExerciseAngina) : string :=
  match x with AnginaNo => "No (0)" | AnginaYes => "Yes (1)" end.
Definition exang_code (x : ExerciseAngina) : Z :=
  match x with AnginaNo => 0 | AnginaYes => 1 end.

Definition slope_label (x : SlopeST) : string :=
  match x with
  | Upsloping => "Upsloping (1)" | Flat => "Flat (2)"
  | Downsloping => "Downsloping (3)"
  end.
Definition slope_code (x : SlopeST) : Z :=
  match x with Upsloping => 1 | Flat => 2 | Downsloping => 3 end.

Definition thal_label (x : Thallium) : string :=
  match x with
  | ThalNormal => "Normal (3)" | FixedDefect => "Fixed Defect (6)"
  | ReversibleDefect => "Reversible Defect (7)"
  end.
Definition thal_code (x : Thallium) : Z :=
  match x with ThalNormal => 3 | FixedDefect => 6 | ReversibleDefect => 7 end.

(** The 13 manual inputs. *)
Record Selection : Type := mkSelection {
  sel_age : Z;
  sel_sex : Sex;
  sel_cp : ChestPain;
  sel_bp : Z;
  sel_chol : Z;
  sel_fbs : FastingBS;
  sel_ecg : RestingECG;
  sel_max_hr : Z;
  sel_exang : ExerciseAngina;
  sel_oldpeak : float;
  sel_slope : SlopeST;
  sel_vessels : Z;
  sel_thal : Thallium
}.

(** What the widgets return for a selection. *)
Definition form_of (x : Selection) (submitted : bool) : Form :=
  mkForm (sel_age x) (sex_label (sel_sex x)) (cp_label (sel_cp x)) (sel_bp x)
         (sel_chol x) (fbs_label (sel_fbs x)) (ecg_label (sel_ecg x))
         (sel_max_hr x) (exang_label (sel_exang x)) (sel_oldpeak x)
         (slope_label (sel_slope x)) (sel_vessels x) (thal_label (sel_thal x))
         submitted.

(** The field names of a FeatureRecord, in the documented order. *)
Definition feature_names : list string :=
  ["Age"; "Sex"; "Chest pain type"; "BP"; "Cholesterol"; "FBS over 120";
   "EKG results"; "Max HR"; "Exercise angina"; "ST depression";
   "Slope of ST"; "Number of vessels fluro"; "Thallium"].

(** The values of the FeatureRecord documented for a selection. *)
Definition feature_values (x : Selection) : list pyval :=
  [VInt (sel_age x); VInt (sex_code (sel_sex x)); VInt (cp_code (sel_cp x));
   VInt (sel_bp x); VInt (sel_chol x); VInt (fbs_code (sel_fbs x));
   VInt (ecg_code (sel_ecg x)); VInt (sel_max_hr x);
   VInt (exang_code (sel_exang x)); VFloat (sel_oldpeak x);
   VInt (slope_code (sel_slope x)); VInt (sel_vessels x);
   VInt (thal_code (sel_thal x))].

(** The single-row FeatureRecord documented for a selection. *)
Definition feature_record (x : Selection) : DataFrame :=
  mkDF 1 (map (fun kv => (fst kv, [snd kv]))
              (combine feature_names (feature_values x))).

(** A form whose categorical entries are options of their select boxes. *)
Definition valid_form (f : Form) : Prop :=
  In (sex_disp f) sex_options /\ In (cp_disp f) cp_options /\
  In (fbs_disp f) fbs_options /\ In (ecg_disp f) ecg_options /\
  In (exang_disp f) exang_options /\ In (slope_disp f) slope_options /\
  In (ca f) ca_options /\ In (thal_disp f) thal_options.

(** *** Rendering with one decimal place *)

(** [t] tenths is the magnitude [m * 2^e] rounded to the nearest tenth,
    ties going to the even number of tenths. *)
Definition nearest_tenths (m : positive) (e t : Z) : Prop :=
  if Z.leb 0 e then t = (Zpos m * 2 ^ e * 10)%Z
  else
    let d := (2 ^ (- e))%Z in
    (Z.abs (2 * (t * d - 10 * Zpos m)) <= d)%Z /\
    (Z.abs (2 * (t * d - 10 * Zpos m)) = d -> Z.even t = true).

(** A text with one decimal place: a sign, the integer part, a point and
    one digit. *)
Definition one_decimal_text (sign : bool) (t : Z) : string :=
  sign_text sign ++ str_Z (t / 10) ++ "." ++ str_Z (t mod 10).

(** A class value that equals 1 under Python's [==]: the integer 1, a
    float whose value is 1, or [True]. *)
Definition equals_one (v : pyval) : Prop :=
  match v with
  | VInt z => z = 1%Z
  | VFloat f => float_eq_Z f 1 = true
  | VBool b => b = true
  | VStr _ => False
  end.

(** The class values the verdict branch takes as positive. *)
Definition positive_class (v : pyval) : Prop :=
  equals_one v \/ v = VStr "Presence".

(** *** Tables of values and of texts *)

(** An integer in canonical decimal form. *)
Definition parse_int (s : string) : option Z :=
  match NilZero.int_of_string s with
  | Some d =>
      let z := Z.of_int d in
      if String.eqb (str_Z z) s then Some z else None
  | None => None
  end.

(** The columns of a table given by rows. *)
Definition columns_of_rows (names : list string) (rows : list (list pyval))
    : list (string * list pyval) :=
  map (fun jn => (snd jn, map (fun row => nth (fst jn) row NaN) rows))
      (combine (seq 0 (List.length names)) names).

Definition is_int (v : pyval) : bool :=
  match v with VInt _ => true | _ => false end.

(** *** The records of a CSV text

    A reader of the dialect the export writes: fields separated by commas,
    records ended by line feeds, a field that opens with a double quote
    running to its closing quote, a doubled quote inside it standing for
    one. Any other character, a carriage return among them, belongs to the
    field it is in. *)

Inductive csv_state : Type := FieldStart | InPlain | InQuoted | AfterQuote.

(** What is read from a point of the text on: the rest of the field and
    of the record at that point, and the records after it. *)
Definition csv_read : Type := (string * list string * list (list string))%type.

Definition add_char (c : ascii) (r : csv_read) : csv_read :=
  match r with (f, row, rows) => (String c f, row, rows) end.

Definition end_field (r : csv_read) : csv_read :=
  match r with (f, row, rows) => (EmptyString, f :: row, rows) end.

Definition end_record (r : csv_read) : csv_read :=
  match r with (f, row, rows) => (EmptyString, [], (f :: row) :: rows) end.

(** What follows a field: the next field after a comma, the next record
    after a line feed. *)
Definition after_field (c : ascii) (r : csv_read) : csv_read :=
  if Ascii.eqb c ","%char then end_field r else end_record r.

Definition is_sep (c : ascii) : bool :=
  Ascii.eqb c ","%char || Ascii.eqb c (ascii_of_nat 10).

Fixpoint csv_scan (st : csv_state) (text : string) : csv_read :=
  match text with
  | EmptyString => (EmptyString, [], [])
  | String c rest =>
      match st with
      | InQuoted =>
          if Ascii.eqb c dquote_char then csv_scan AfterQuote rest
          else add_char c (csv_scan InQuoted rest)
      | AfterQuote =>
          if Ascii.eqb c dquote_char then add_char c (csv_scan InQuoted rest)
          else if is_sep c then after_field c (csv_scan FieldStart rest)
          else add_char c (csv_scan InPlain rest)
      | FieldStart =>
          if Ascii.eqb c dquote_char then csv_scan InQuoted rest
          else if is_sep c then after_field c (csv_scan FieldStart rest)
          else add_char c (csv_scan InPlain rest)
      | InPlain =>
          if is_sep c then after_field c (csv_scan FieldStart rest)
          else add_char c (csv_scan InPlain rest)
      end
  end.

(** The characters of [f] put before the field being read. *)
Definition add_chars (f : string) (r : csv_read) : csv_read :=
  match r with (g, row, rows) => ((f ++ g)%string, row, rows) end.

Definition records_of (r : csv_read) : list (list string) :=
  match r with (f, row, rows) => (f :: row) :: rows end.

(** The records of a text whose last record ends with a line feed. *)
Definition csv_records (text : string) : option (list (list string)) :=
  match rev (records_of (csv_scan FieldStart text)) with
  | [EmptyString] :: records => Some (rev records)
  | _ => None
  end.

(** A frame as a table of texts: the column names, then the texts of the
    cells of each row. *)
Definition text_table (repr_float : float -> string) (df : DataFrame)
    : list (list string) :=
  column_names df
  :: map (fun i => map (cell_text repr_float) (row_cells df i))
         (seq 0 (df_index df)).

(** No name and no cell text of the frame holds a carriage return, which
    the csv module writes unquoted before Python 3.13 and which readers
    may take for a line break. *)
Definition no_carriage_return (repr_float : float -> string) (df : DataFrame)
    : bool :=
  forallb (forallb (fun field => negb (occurs (ascii_of_nat 13) field)))
          (text_table repr_float df).

(** A frame whose columns are as long as its index and hold values of one
    kind. *)
Definition uniform (kind : pyval -> bool) (df : DataFrame) : bool :=
  forallb (fun c => Nat.eqb (List.length (snd c)) (df_index df)
                    && forallb kind (snd c))
          (df_columns df).

(** *** Example predictors and worlds for concrete runs *)

(** A classifier without probability estimation: class 0 for every row. *)
Definition plain_model : Predictor :=
  mkPredictor (fun df => Ok (repeat (VInt 0) (df_index df))) None.

(** A classifier with probability estimation: class 1 with probability
    0.75 for every row. *)
Definition scoring_model : Predictor :=
  mkPredictor
    (fun df => Ok (repeat (VInt 1) (df_index df)))
    (Some (fun df => Ok (mkArr 2 (repeat [0.25; 0.75]%float (df_index df))))).

(** A classifier whose probabilities are float32, as gradient-boosting
    libraries return them: class 1 with probability 0.9735 to the nearest
    float32 for every row. *)
Definition float32_model : Predictor :=
  mkPredictor
    (fun df => Ok (repeat (VInt 1) (df_index df)))
    (Some (fun df =>
             Ok (mkArray NumPy2 Float32 2
                   (repeat [0x1.b22dp-6; 0x1.f26e98p-1]%float (df_index df))))).

(** A classifier trained on string labels: [Presence] for every row. *)
Definition label_model : Predictor :=
  mkPredictor (fun df => Ok (repeat (VStr "Presence") (df_index df))) None.

(** A classifier that answers one class whatever the number of rows. *)
Definition constant_model : Predictor :=
  mkPredictor (fun _ => Ok [VInt 1]) None.

(** An uploaded dataset of two patients, features only. *)
Definition two_patients : DataFrame :=
  mkDF 2 [("Age", [VInt 50; VInt 63]); ("Sex", [VInt 1; VInt 0])].

(** A dataset that already has a column called [Prediction], such as a
    downloaded result uploaded again. *)
Definition scored_before : DataFrame :=
  mkDF 1 [("Age", [VInt 50]); ("Prediction", [VInt 0])].

(** A dataset whose [Prediction] column already holds what
    [scoring_model] predicts. *)
Definition scored_same : DataFrame :=
  mkDF 1 [("Age", [VInt 50]); ("Prediction", [VInt 1])].

(** A classifier that checks the columns it is given against those it was
    fitted on, in [predict] and in [predict_proba] alike. *)
Definition fitted_columns : list string := ["Age"; "Sex"].

Definition schema_error : exn :=
  ValueError "The feature names should match those that were passed during fit.".

Definition check_schema {A} (df : DataFrame) (answer : A) : result A :=
  if list_eq_dec string_dec (column_names df) fitted_columns
  then Ok answer else Raise schema_error.

Definition strict_model : Predictor :=
  mkPredictor
    (fun df => check_schema df (repeat (VInt 1) (df_index df)))
    (Some (fun df =>
             check_schema df (mkArr 2 (repeat [0.25; 0.75]%float (df_index df))))).

(** An upload that lacks the column [Sex]. *)
Definition missing_sex : DataFrame := mkDF 2 [("Age", [VInt 50; VInt 63])].

(** A classifier trained on labels that are strings of digits. *)
Definition digit_label_model : Predictor :=
  mkPredictor (fun df => Ok (repeat (VStr "1") (df_index df))) None.

(** A classifier trained on integer labels, without probabilities. *)
Definition int_label_model : Predictor :=
  mkPredictor (fun df => Ok (repeat (VInt 1) (df_index df))) None.

(** An upload of one patient. *)
Definition one_patient : DataFrame := mkDF 1 [("Age", [VInt 50])].

(** A world with the given files, each of which unpickles to [pr]. *)
Definition world_with_model (files : list string) (pr : Predictor) : World :=
  mkWorld (fun p => existsb (String.eqb p) files) (fun _ => Ok pr).

(** The form as it first shows, submitted. *)
Definition default_form : Form :=
  mkForm 50 "Male" "Typical Angina (1)" 120 200 "False (0)" "Normal (0)" 150
         "No (0)" 0 "Upsloping (1)" 0 "Normal (3)" true.

Definition no_upload : Upload := mkUpload None false.

(** A classifier that fails for want of a column, as pandas reports it. *)
Definition missing_column_model : Predictor :=
  mkPredictor (fun _ => Raise (KeyError "['Sex'] not in index")) None.



(** *** Vocabulary of the further properties *)

(** [key in d]. *)
Definition dict_has (d : list (string * Z)) (key : string) : bool :=
  existsb (fun kv => String.eqb key (fst kv)) d.

(** The first label of a form, in the order the script looks them up, that
    its dict does not hold. *)
Definition first_missing_label (f : Form) : option string :=
  if negb (dict_has cp_map (cp_disp f)) then Some (cp_disp f)
  else if negb (dict_has ecg_map (ecg_disp f)) then Some (ecg_disp f)
  else if negb (dict_has slope_map (slope_disp f)) then Some (slope_disp f)
  else if negb (dict_has thal_map (thal_disp f)) then Some (thal_disp f)
  else None.


Definition manual_subheader : ui_event := st_subheader "Enter Patient Details".

(** The report of a failed manual prediction. *)
Definition prediction_error (e : exn) : ui_event :=
  st_error ("Prediction Error: " ++ exn_str e).

Definition read_error : ui_event := st_error "Could not read file.".

Definition is_download (e : ui_event) : bool :=
  match e with st_download_button _ _ _ _ => true | _ => false end.

Definition is_load (e : io_event) : bool :=
  match e with io_load _ => true | _ => false end.

(** A call of a method of the predictor instance [id]. *)
Definition calls_model (id : nat) (e : io_event) : bool :=
  match e with
  | io_predict i _ | io_predict_proba i _ => Nat.eqb i id
  | io_exists _ | io_load _ => false
  end.

(** A statement whose outside calls all satisfy [P]. *)
Definition io_within (P : io_event -> bool) {A} (c : M A) : Prop :=
  forall s, exists events,
    io (fst (c s)) = io s ++ events /\ forallb P events = true.

(** A statement that never raises. *)
Definition returns (c : M unit) : Prop :=
  forall s, exists s', c s = (s', Ok tt).

(** The error of assigning [k] values to a column of a frame of [n]
    rows. *)
Definition length_mismatch (k n : nat) : exn :=
  ValueError ("Length of values (" ++ str_nat k
              ++ ") does not match length of index (" ++ str_nat n ++ ")").

(** A world with two artifacts: the one under [models/] is corrupt, the
    one under [src/] is sound. *)
Definition masked_world : World :=
  mkWorld
    (fun p => existsb (String.eqb p)
                      ["models/best_model.pkl"; "src/best_model.pkl"])
    (fun p => if String.eqb p "src/best_model.pkl" then Ok scoring_model
              else Raise (ModelError "invalid load key")).

(** A predictor that answers one class too few. *)
Definition short_model : Predictor :=
  mkPredictor (fun df => Ok (repeat (VInt 1) (pred (df_index df)))) None.

(** A classifier fitted on one class only: its probability array has a
    single column. *)
Definition one_class_model : Predictor :=
  mkPredictor
    (fun df => Ok (repeat (VInt 0) (df_index df)))
    (Some (fun df => Ok (mkArr 1 (repeat [1]%float (df_index df))))).

(** A predictor whose [predict] raises. *)
Definition broken_model : Predictor :=
  mkPredictor (fun _ => Raise schema_error) None.

(** A form with a chest-pain label that is no key of its dict. *)
Definition unknown_label_form : Form :=
  mkForm 63 "Female" "Crushing" 145 233 "True (1)" "LV Hypertrophy (2)" 150
         "Yes (1)" 2.5 "Downsloping (3)" 3 "Reversible Defect (7)" true.

(* ===================================================================== *)
(** * Properties *)
(* ===================================================================== *)

(** ** The text of an exception *)





(** [str] of some exceptions, as Python prints them. *)
Example exn_str_examples :
  exn_str (KeyError "Sex") = "'Sex'"
  /\ exn_str (KeyError "it's") = (dquote ++ "it's" ++ dquote)%string
  /\ exn_str (KeyError ("a'" ++ dquote))
     = ("'a" ++ String backslash "'" ++ dquote ++ "'")%string
  /\ exn_str (KeyError ("two" ++ LF ++ "lines"))
     = ("'two" ++ String backslash "nlines'")%string
  /\ exn_str (KeyError (String (ascii_of_nat 7) (String backslash EmptyString)))
     = ("'" ++ String backslash "x07" ++ String backslash (String backslash "'"))%string
  /\ exn_str (KeyError "['Sex'] not in index")
     = (dquote ++ "['Sex'] not in index" ++ dquote)%string
  /\ exn_str (IndexError 1 1 1) = "index 1 is out of bounds for axis 1 with size 1"
  /\ exn_str (NameError "df") = "name 'df' is not defined"
  /\ exn_str (ValueError "All arrays must be of the same length")
     = "All arrays must be of the same length".
Proof. repeat split. Qed.

(** ** The monad *)

Lemma with_io_nil (s : State) : with_io s [] = s.
Proof. destruct s; unfold with_io; simpl. now rewrite app_nil_r. Qed.

Lemma with_io_app (s : State) (a b : list io_event) :
  with_io (with_io s a) b = with_io s (a ++ b).
Proof. unfold with_io; simpl. now rewrite app_assoc. Qed.

Lemma with_ui_nil (s : State) : with_ui s [] = s.
Proof. destruct s; unfold with_ui; simpl. now rewrite app_nil_r. Qed.

Lemma call_with_io (e : io_event) (s : State) :
  call e s = (with_io s [e], Ok tt).
Proof. reflexivity. Qed.

Lemma emit_with_ui (e : ui_event) (s : State) :
  emit e s = (with_ui s [e], Ok tt).
Proof. reflexivity. Qed.

(** ** Model Artifact Resolver *)

(** For a relative name, [os.path.join] builds the documented paths. *)
Lemma possible_paths_relative (filename : string) :
  Path.startswith Path.sep filename = false ->
  possible_paths filename = documented_paths filename.
Proof.
  intros Hrel. unfold possible_paths, documented_paths, Path.join.
  cbn [fold_left]. unfold Path.join_step. rewrite Hrel. reflexivity.
Qed.

(** The search loop: it checks paths in order, stops at the first that
    exists, and never raises. *)
Lemma first_existing_spec (w : World) (paths : list string) (s : State) :
  first_existing w paths s =
    (with_io s (map io_exists (checked_paths w paths)),
     Ok (find (path_exists w) paths)).
Proof.
  revert s. induction paths as [|p rest IH]; intros s.
  - cbn. now rewrite with_io_nil.
  - cbn [first_existing checked_paths find map].
    unfold bind at 1. rewrite call_with_io.
    destruct (path_exists w p) eqn:Hp.
    + reflexivity.
    + rewrite IH, with_io_app. reflexivity.
Qed.

(** What [find] returns is the first element that satisfies the test. *)
Lemma find_first {A} (f : A -> bool) (l : list A) (x : A) :
  find f l = Some x ->
  exists before after,
    l = before ++ x :: after /\ f x = true /\
    forall y, In y before -> f y = false.
Proof.
  induction l as [|a l IH]; cbn; [discriminate|].
  destruct (f a) eqn:Ha.
  - intros [= <-]. exists [], l. repeat split; auto. intros y [].
  - intros Hfind. destruct (IH Hfind) as (before & after & -> & Hx & Hb).
    exists (a :: before), after. repeat split; auto.
    intros y [<-|Hy]; auto.
Qed.

Lemma find_none_iff {A} (f : A -> bool) (l : list A) :
  find f l = None <-> forall y, In y l -> f y = false.
Proof.
  split.
  - apply find_none.
  - induction l as [|a l IH]; cbn; intros H; [reflexivity|].
    rewrite (H a (or_introl eq_refl)). apply IH. intros y Hy. apply H. now right.
Qed.

(** C4 (as amended): for every file name that is relative (does not begin
    with a slash), the resolver checks [models/<file>], [src/<file>],
    [<file>], [../models/<file>] in that order, stopping at the first that
    exists; it returns that path, and [None] exactly when none of the four
    exists; it never raises. *)
Theorem resolve_model_path_relative :
  forall (w : World) (filename : string) (s : State),
    Path.startswith Path.sep filename = false ->
    let paths := documented_paths filename in
    let found := find (path_exists w) paths in
    resolve_model_path w filename s =
      (with_io s (map io_exists (checked_paths w paths)), Ok found)
    /\ (found = None <-> forall p, In p paths -> path_exists w p = false)
    /\ (forall p, found = Some p ->
          exists before after,
            paths = before ++ p :: after /\ path_exists w p = true /\
            forall q, In q before -> path_exists w q = false).
Proof.
  intros w filename s Hrel paths found.
  unfold resolve_model_path. rewrite (possible_paths_relative _ Hrel).
  split; [apply first_existing_spec|]. split.
  - apply find_none_iff.
  - intros p Hp. now apply find_first.
Qed.

Lemma resolve_model_path_relative_witness :
  Path.startswith Path.sep "best_model.pkl" = false /\
  resolve_model_path (world_with_files ["src/best_model.pkl"; "best_model.pkl"])
                     "best_model.pkl" (run_start process_start)
  = (with_io (run_start process_start)
       [io_exists "models/best_model.pkl"; io_exists "src/best_model.pkl"],
     Ok (Some "src/best_model.pkl")).
Proof.
  split; [reflexivity|].
  exact (proj1 (resolve_model_path_relative
                  (world_with_files ["src/best_model.pkl"; "best_model.pkl"])
                  "best_model.pkl" (run_start process_start) eq_refl)).
Defined.

(** C4 (as stated) fails for an absolute file name: [os.path.join] drops
    what precedes an absolute component, so all four candidates are the
    name itself; with [models//m.pkl] and [/m.pkl] both present the
    resolver checks and returns [/m.pkl], not the first documented
    candidate. *)
Lemma resolve_model_path_absolute :
  let w := world_with_files ["models//m.pkl"; "/m.pkl"] in
  resolve_model_path w "/m.pkl" (run_start process_start)
    = (with_io (run_start process_start) [io_exists "/m.pkl"],
       Ok (Some "/m.pkl"))
  /\ find (path_exists w) (documented_paths "/m.pkl") = Some "models//m.pkl".
Proof. split; reflexivity. Qed.

(** ** Model Loader *)

(** What the undecorated body does, case by case. *)
Lemma load_model_body_eq (w : World) (s : State) :
  load_model_body w s =
    let paths := possible_paths model_filename in
    let checks := map io_exists (checked_paths w paths) in
    match find (path_exists w) paths with
    | None => (with_io s checks, Ok None)
    | Some p =>
        match unpickle w p with
        | Ok pr =>
            (mkState (mkProcess (cache (proc s)) (S (next_id (proc s))))
                     (ui s) (io s ++ checks ++ [io_load p]) (frame s),
             Ok (Some (mkModel (next_id (proc s)) pr)))
        | Raise e =>
            (mkState (proc s) (ui s ++ [load_error e])
                     (io s ++ checks ++ [io_load p]) (frame s),
             Ok None)
        end
    end.
Proof.
  unfold load_model_body, resolve_model_path.
  unfold bind at 1. rewrite first_existing_spec.
  cbv zeta.
  destruct (find (path_exists w) (possible_paths model_filename)) as [p|] eqn:Hfind;
    [|reflexivity].
  assert (Hne : Path.is_empty p = false).
  { apply find_some in Hfind. destruct Hfind as [Hin _].
    cbn in Hin. decompose [or] Hin; subst; try reflexivity; contradiction. }
  rewrite Hne. cbn [negb].
  unfold try_except, joblib_load, bind, call, lift, ret, emit, with_io, load_error.
  cbn [proc ui io frame].
  destruct (unpickle w p); cbn [proc ui io frame cache next_id];
    now rewrite <- app_assoc.
Qed.

(** A cache hit: the stored value, the stored elements replayed, nothing
    else. *)
Lemma load_model_hit (w : World) (s : State) (r : option Model)
    (msgs : list ui_event) :
  cache (proc s) = Some (r, msgs) ->
  load_model w s = (with_ui s msgs, Ok r).
Proof.
  intros Hc. unfold load_model, cache_resource. now rewrite Hc.
Qed.

(** A successful load writes nothing on the page. *)
Lemma load_model_body_some (w : World) (s s' : State) (m : Model) :
  load_model_body w s = (s', Ok (Some m)) -> ui s' = ui s.
Proof.
  rewrite load_model_body_eq. cbv zeta.
  destruct (find _ _) as [p|]; [|discriminate].
  destruct (unpickle w p); intros [= <- _]; reflexivity.
Qed.

(** The first load that returns a model stores it. *)
Lemma load_model_miss_some (w : World) (s s1 : State) (m : Model) :
  cache (proc s) = None ->
  load_model w s = (s1, Ok (Some m)) ->
  cache (proc s1) = Some (Some m, []).
Proof.
  intros Hc. unfold load_model, cache_resource. rewrite Hc.
  destruct (load_model_body w _) as [s' [r|e]] eqn:Hbody; [|discriminate].
  intros [= <- ->]. apply load_model_body_some in Hbody.
  cbn in *. now rewrite Hbody.
Qed.

(** *** Statements that only call the predictor *)

Lemma inference_only_quiet {A} (c : M A) :
  (forall s, proc (fst (c s)) = proc s /\ io (fst (c s)) = io s) ->
  inference_only c.
Proof.
  intros H s. destruct (H s) as [Hp Hio]. split; [exact Hp|].
  exists []. rewrite app_nil_r. auto.
Qed.

Lemma inference_only_ret {A} (a : A) : inference_only (ret a).
Proof. apply inference_only_quiet. intros s. split; reflexivity. Qed.

Lemma inference_only_lift {A} (r : result A) : inference_only (lift r).
Proof. apply inference_only_quiet. intros s. split; reflexivity. Qed.

Lemma inference_only_emit (e : ui_event) : inference_only (emit e).
Proof. apply inference_only_quiet. intros s. split; reflexivity. Qed.

Lemma inference_only_get_df : inference_only get_df.
Proof.
  apply inference_only_quiet. intros s. unfold get_df.
  destruct (frame s); split; reflexivity.
Qed.

Lemma inference_only_put_df (df : DataFrame) : inference_only (put_df df).
Proof. apply inference_only_quiet. intros s. split; reflexivity. Qed.

Lemma inference_only_call (e : io_event) :
  file_io e = false -> inference_only (call e).
Proof.
  intros He s. split; [reflexivity|]. exists [e]. split; [reflexivity|].
  cbn. now rewrite He.
Qed.

Lemma inference_only_bind {A B} (c : M A) (k : A -> M B) :
  inference_only c -> (forall a, inference_only (k a)) ->
  inference_only (bind c k).
Proof.
  intros Hc Hk s. unfold bind.
  destruct (Hc s) as [Hp (ev & Hio & Hev)].
  destruct (c s) as [s' [a|e]]; cbn [fst] in *.
  - destruct (Hk a s') as [Hp' (ev' & Hio' & Hev')].
    split; [congruence|]. exists (ev ++ ev').
    rewrite Hio', Hio, app_assoc, existsb_app, Hev, Hev'. auto.
  - split; [exact Hp|]. exists ev. auto.
Qed.

Lemma inference_only_try {A} (c : M A) (h : exn -> M A) :
  inference_only c -> (forall e, inference_only (h e)) ->
  inference_only (try_except c h).
Proof.
  intros Hc Hh s. unfold try_except.
  destruct (Hc s) as [Hp (ev & Hio & Hev)].
  destruct (c s) as [s' [a|e]]; cbn [fst] in *.
  - split; [exact Hp|]. exists ev. auto.
  - destruct (Hh e s') as [Hp' (ev' & Hio' & Hev')].
    split; [congruence|]. exists (ev ++ ev').
    rewrite Hio', Hio, app_assoc, existsb_app, Hev, Hev'. auto.
Qed.

Create HintDb inference.

#[local] Hint Resolve inference_only_ret inference_only_lift
  inference_only_emit inference_only_get_df inference_only_put_df
  inference_only_call : inference.

(** Breaks a statement built from binds, tries and case distinctions into
    statements already known to qualify. *)
Ltac inference_steps :=
  repeat first
    [ solve [auto with inference]
    | apply inference_only_bind; [|intros ?]
    | apply inference_only_try; [|intros ?]
    | match goal with
      | |- inference_only (match ?x with _ => _ end) => destruct x
      | |- inference_only (if ?x then _ else _) => destruct x
      end ].

Lemma inference_only_df_setitem (key : string) (value : list pyval) :
  inference_only (df_setitem key value).
Proof. unfold df_setitem. inference_steps. Qed.

#[local] Hint Resolve inference_only_df_setitem : inference.

Lemma inference_only_batch_augment (m : Model) :
  inference_only (batch_augment m).
Proof. unfold batch_augment. inference_steps. Qed.

Lemma inference_only_single_proba (m : Model) (input_df : DataFrame) :
  inference_only (single_proba m input_df).
Proof. unfold single_proba. inference_steps. Qed.

#[local] Hint Resolve inference_only_batch_augment
  inference_only_single_proba : inference.

Lemma inference_only_single_predict (m : Model) (input_df : DataFrame) :
  inference_only (single_predict m input_df).
Proof. unfold single_predict. inference_steps. Qed.

#[local] Hint Resolve inference_only_single_predict : inference.

Lemma inference_only_manual_tab (m : Model) (f : Form) :
  inference_only (manual_tab m f).
Proof. unfold manual_tab. inference_steps. Qed.

Lemma inference_only_batch_tab (repr_float : float -> string) (m : Model)
    (u : Upload) :
  inference_only (batch_tab repr_float m u).
Proof. unfold batch_tab, batch_analysis. inference_steps. Qed.

(** A run whose load is a cache hit. *)
Lemma main_hit (repr_float : float -> string) (w : World) (f : Form)
    (u : Upload) (s : State) (r : option Model) (msgs : list ui_event) :
  cache (proc s) = Some (r, msgs) ->
  main repr_float w f u s =
    match r with
    | None => emit model_not_found
    | Some m => manual_tab m f ;;; batch_tab repr_float m u
    end (with_ui (with_ui s [app_title]) msgs).
Proof.
  intros Hc. unfold main. unfold bind at 1. rewrite emit_with_ui.
  unfold bind at 1. rewrite (load_model_hit w _ r msgs) by exact Hc.
  reflexivity.
Qed.

(** Once the slot is filled, a run of the script never touches it again,
    reads no file and builds no object. *)
Lemma main_cached (repr_float : float -> string) (w : World) (f : Form)
    (u : Upload) (s : State) (c : option Model * list ui_event) :
  cache (proc s) = Some c ->
  proc (fst (main repr_float w f u s)) = proc s /\
  exists events,
    io (fst (main repr_float w f u s)) = io s ++ events /\
    existsb file_io events = false.
Proof.
  intros Hc. destruct c as [r msgs].
  rewrite (main_hit repr_float w f u s r msgs Hc).
  assert (H : inference_only
                match r with
                | None => emit model_not_found
                | Some m => manual_tab m f ;;; batch_tab repr_float m u
                end).
  { destruct r as [m|]; [|apply inference_only_emit].
    apply inference_only_bind; [apply inference_only_manual_tab|].
    intros _. apply inference_only_batch_tab. }
  exact (H (with_ui (with_ui s [app_title]) msgs)).
Qed.

Lemma script_runs_cached (repr_float : float -> string)
    (later : list RunInput) (p : Process) (c : option Model * list ui_event) :
  cache p = Some c -> script_runs repr_float later p = p.
Proof.
  intros Hc. induction later as [|i rest IH]; [reflexivity|].
  cbn [script_runs]. unfold script_run_on, script_run.
  destruct (main_cached repr_float (run_world i) (run_form i) (run_upload i)
              (run_start p) c Hc) as [Hp _].
  cbn [proc run_start] in Hp. rewrite Hp. exact IH.
Qed.

(** The first call in a process, case by case: whatever it returns is
    stored, with what it wrote. *)
Lemma load_model_miss (w : World) (s : State) :
  cache (proc s) = None ->
  load_model w s =
    let paths := possible_paths model_filename in
    let checks := map io_exists (checked_paths w paths) in
    let n := next_id (proc s) in
    match find (path_exists w) paths with
    | None =>
        (mkState (mkProcess (Some (None, [])) n)
                 (ui s) (io s ++ checks) (frame s), Ok None)
    | Some p =>
        match unpickle w p with
        | Ok pr =>
            (mkState (mkProcess (Some (Some (mkModel n pr), [])) (S n))
                     (ui s) (io s ++ checks ++ [io_load p]) (frame s),
             Ok (Some (mkModel n pr)))
        | Raise e =>
            (mkState (mkProcess (Some (None, [load_error e])) n)
                     (ui s ++ [load_error e])
                     (io s ++ checks ++ [io_load p]) (frame s),
             Ok None)
        end
    end.
Proof.
  intros Hc. unfold load_model, cache_resource. rewrite Hc.
  rewrite load_model_body_eq. cbv zeta.
  destruct (find (path_exists w) (possible_paths model_filename)) as [p|].
  - destruct (unpickle w p); cbn; now rewrite ?app_nil_r.
  - cbn. now rewrite app_nil_r.
Qed.

(** C6: the loader is a single-slot, lazily filled cache. The slot is
    empty when the process starts; the first load that returns a predictor
    stores that instance; after any number of later runs of the script, in
    whatever worlds, a load returns the very same instance and changes
    nothing: no path is checked, no file is deserialized, no object is
    built, and the slot is as it was. *)
Theorem load_model_memoized :
  forall (repr_float : float -> string) (w : World) (s s1 : State) (m : Model),
    cache (proc s) = None ->
    load_model w s = (s1, Ok (Some m)) ->
    cache process_start = None /\
    cache (proc s1) = Some (Some m, []) /\
    forall (later : list RunInput) (w' : World) (s2 : State),
      proc s2 = script_runs repr_float later (proc s1) ->
      load_model w' s2 = (s2, Ok (Some m)).
Proof.
  intros repr_float w s s1 m Hempty Hload.
  pose proof (load_model_miss_some w s s1 m Hempty Hload) as Hslot.
  split; [reflexivity|]. split; [exact Hslot|].
  intros later w' s2 Hproc.
  rewrite (script_runs_cached repr_float later _ _ Hslot) in Hproc.
  rewrite (load_model_hit w' s2 (Some m) []).
  - now rewrite with_ui_nil.
  - now rewrite Hproc.
Qed.

Lemma load_model_memoized_witness :
  let w := world_with_model ["models/best_model.pkl"] scoring_model in
  let s := run_start process_start in
  let s1 := fst (load_model w s) in
  let later := [mkRun w default_form no_upload;
                mkRun (world_with_files []) default_form no_upload] in
  let s2 := run_start (script_runs format_1f later (proc s1)) in
  load_model w s = (s1, Ok (Some (mkModel 0 scoring_model))) /\
  load_model (world_with_files []) s2 = (s2, Ok (Some (mkModel 0 scoring_model))).
Proof.
  cbv zeta. split; [reflexivity|].
  exact (proj2 (proj2 (load_model_memoized format_1f
           (world_with_model ["models/best_model.pkl"] scoring_model)
           (run_start process_start)
           (fst (load_model
                   (world_with_model ["models/best_model.pkl"] scoring_model)
                   (run_start process_start)))
           (mkModel 0 scoring_model) eq_refl eq_refl))
         [mkRun (world_with_model ["models/best_model.pkl"] scoring_model)
                default_form no_upload;
          mkRun (world_with_files []) default_form no_upload]
         (world_with_files [])
         (run_start (script_runs format_1f
            [mkRun (world_with_model ["models/best_model.pkl"] scoring_model)
                   default_form no_upload;
             mkRun (world_with_files []) default_form no_upload]
            (proc (fst (load_model
                    (world_with_model ["models/best_model.pkl"] scoring_model)
                    (run_start process_start))))))
         eq_refl).
Defined.




(** A pickle cut short, and one with an unknown opcode, for which joblib
    raises a [KeyError] whose key is a number: the cause is shown as
    [str] gives it. *)
Example load_error_texts :
  let run := fun cause : exn =>
    ui (fst (script_run format_1f
               (mkWorld (fun p => String.eqb p "best_model.pkl")
                        (fun _ => Raise cause))
               default_form no_upload process_start)) in
  run (ModelError "Ran out of input")
    = [app_title; st_error "Error loading model: Ran out of input";
       model_not_found]
  /\ run (ModelError "60")
     = [app_title; st_error "Error loading model: 60"; model_not_found]
  /\ run (KeyError "sklearn")
     = [app_title; st_error "Error loading model: 'sklearn'"; model_not_found].
Proof. repeat split. Qed.

(** ** Manual Input Encoder *)

(** The select boxes offer exactly the labels of the enumerations. *)
Lemma options_are_labels :
  sex_options = map sex_label [Male; Female] /\
  cp_options = map cp_label
                 [TypicalAngina; AtypicalAngina; NonAnginalPain; Asymptomatic] /\
  fbs_options = map fbs_label [FbsFalse; FbsTrue] /\
  ecg_options = map ecg_label [EcgNormal; STTAbnormality; LVHypertrophy] /\
  exang_options = map exang_label [AnginaNo; AnginaYes] /\
  slope_options = map slope_label [Upsloping; Flat; Downsloping] /\
  thal_options = map thal_label [ThalNormal; FixedDefect; ReversibleDefect].
Proof. repeat split. Qed.

(** Each option is the label of one member of its enumeration. *)
Ltac option_cases H :=
  cbn in H; decompose [or] H; try contradiction; subst.

Lemma sex_option_label (l : string) :
  In l sex_options -> exists x, l = sex_label x.
Proof.
  intros H. option_cases H;
    [exists Male | exists Female]; reflexivity.
Qed.

Lemma cp_option_label (l : string) :
  In l cp_options -> exists x, l = cp_label x.
Proof.
  intros H. option_cases H;
    [exists TypicalAngina | exists AtypicalAngina | exists NonAnginalPain
    | exists Asymptomatic]; reflexivity.
Qed.

Lemma fbs_option_label (l : string) :
  In l fbs_options -> exists x, l = fbs_label x.
Proof.
  intros H. option_cases H;
    [exists FbsFalse | exists FbsTrue]; reflexivity.
Qed.

Lemma ecg_option_label (l : string) :
  In l ecg_options -> exists x, l = ecg_label x.
Proof.
  intros H. option_cases H;
    [exists EcgNormal | exists STTAbnormality | exists LVHypertrophy];
    reflexivity.
Qed.

Lemma exang_option_label (l : string) :
  In l exang_options -> exists x, l = exang_label x.
Proof.
  intros H. option_cases H;
    [exists AnginaNo | exists AnginaYes]; reflexivity.
Qed.

Lemma slope_option_label (l : string) :
  In l slope_options -> exists x, l = slope_label x.
Proof.
  intros H. option_cases H;
    [exists Upsloping | exists Flat | exists Downsloping]; reflexivity.
Qed.

Lemma thal_option_label (l : string) :
  In l thal_options -> exists x, l = thal_label x.
Proof.
  intros H. option_cases H;
    [exists ThalNormal | exists FixedDefect | exists ReversibleDefect];
    reflexivity.
Qed.

(** A valid form is the form of a selection. *)
Lemma valid_form_selection (f : Form) :
  valid_form f -> exists x, f = form_of x (submitted f).
Proof.
  intros (Hsex & Hcp & Hfbs & Hecg & Hex & Hsl & _ & Hth).
  destruct (sex_option_label _ Hsex) as [sex Esex].
  destruct (cp_option_label _ Hcp) as [cp Ecp].
  destruct (fbs_option_label _ Hfbs) as [fbs Efbs].
  destruct (ecg_option_label _ Hecg) as [ecg Eecg].
  destruct (exang_option_label _ Hex) as [ex Eex].
  destruct (slope_option_label _ Hsl) as [sl Esl].
  destruct (thal_option_label _ Hth) as [th Eth].
  exists (mkSelection (age f) sex cp (trestbps f) (chol f) fbs ecg (thalach f)
                      ex (oldpeak f) sl (ca f) th).
  destruct f; cbn in *. subst. reflexivity.
Qed.

(** The codes the script computes for a selection are the documented
    ones. *)
Lemma encode_selection (x : Selection) (b : bool) :
  encode (form_of x b) =
    Ok (mkCodes (sex_code (sel_sex x)) (cp_code (sel_cp x))
                (fbs_code (sel_fbs x)) (ecg_code (sel_ecg x))
                (exang_code (sel_exang x)) (slope_code (sel_slope x))
                (thal_code (sel_thal x))).
Proof.
  destruct x as [a sex cp bp ch fbs ecg hr ex op sl ve th].
  unfold encode, form_of; cbn [sex_disp cp_disp fbs_disp ecg_disp exang_disp
    slope_disp thal_disp sel_sex sel_cp sel_fbs sel_ecg sel_exang sel_slope
    sel_thal].
  destruct sex, cp, fbs, ecg, ex, sl, th; reflexivity.
Qed.

(** C1: for every valid combination of the 13 manual inputs (categorical
    entries taken from their select boxes, numeric entries whatever the
    widgets return) the encoder produces a one-row frame with exactly the 13
    documented field names in the documented order, each categorical label
    replaced by its documented code and each numeric input unchanged. *)
Theorem encode_form_documented :
  forall f : Form,
    valid_form f ->
    exists x : Selection,
      f = form_of x (submitted f) /\
      encode_form f = Ok (feature_record x) /\
      column_names (feature_record x) = feature_names /\
      map snd (df_columns (feature_record x))
        = map (fun v => [v]) (feature_values x).
Proof.
  intros f Hvalid. destruct (valid_form_selection f Hvalid) as [x Hx].
  exists x. split; [exact Hx|]. split; [|split; reflexivity].
  rewrite Hx. unfold encode_form. rewrite encode_selection. reflexivity.
Qed.

Lemma encode_form_documented_witness :
  valid_form default_form /\
  exists x : Selection,
    default_form = form_of x true /\
    encode_form default_form = Ok (feature_record x) /\
    column_names (feature_record x) = feature_names /\
    map snd (df_columns (feature_record x))
      = map (fun v => [v]) (feature_values x).
Proof.
  assert (H : valid_form default_form).
  { unfold valid_form; cbn; intuition auto. }
  split; [exact H|]. exact (encode_form_documented default_form H).
Defined.

(** The end-to-end scenario of the specification. *)
Example encode_default_form :
  encode_form default_form =
    Ok (mkDF 1 [("Age", [VInt 50]); ("Sex", [VInt 1]);
                ("Chest pain type", [VInt 1]); ("BP", [VInt 120]);
                ("Cholesterol", [VInt 200]); ("FBS over 120", [VInt 0]);
                ("EKG results", [VInt 0]); ("Max HR", [VInt 150]);
                ("Exercise angina", [VInt 0]);
                ("ST depression", [VFloat 0]); ("Slope of ST", [VInt 1]);
                ("Number of vessels fluro", [VInt 0]);
                ("Thallium", [VInt 3])]).
Proof. reflexivity. Qed.

(** The examples the specification names: Female and Male, Asymptomatic,
    Reversible Defect. *)
Example encode_other_form :
  encode_form (mkForm 63 "Female" "Asymptomatic (4)" 145 233 "True (1)"
                      "LV Hypertrophy (2)" 150 "Yes (1)" 2.5 "Downsloping (3)"
                      3 "Reversible Defect (7)" true)
  = Ok (mkDF 1 [("Age", [VInt 63]); ("Sex", [VInt 0]);
                ("Chest pain type", [VInt 4]); ("BP", [VInt 145]);
                ("Cholesterol", [VInt 233]); ("FBS over 120", [VInt 1]);
                ("EKG results", [VInt 2]); ("Max HR", [VInt 150]);
                ("Exercise angina", [VInt 1]);
                ("ST depression", [VFloat 2.5]); ("Slope of ST", [VInt 3]);
                ("Number of vessels fluro", [VInt 3]);
                ("Thallium", [VInt 7])]).
Proof. reflexivity. Qed.

(** A label outside a dict has no fallback: the lookup raises. *)
Example encode_unknown_label :
  encode (mkForm 63 "Female" "Crushing" 145 233 "True (1)"
                 "LV Hypertrophy (2)" 150 "Yes (1)" 2.5 "Downsloping (3)"
                 3 "Reversible Defect (7)" true)
  = Raise (KeyError "Crushing").
Proof. reflexivity. Qed.

(** ** Single-Record Predictor *)

(** Rounding to nearest, ties to even, of a non-negative quotient. *)
Lemma round_half_even_nearest (n d : Z) :
  (0 < d)%Z ->
  let t := round_half_even n d in
  (Z.abs (2 * (t * d - n)) <= d)%Z /\
  (Z.abs (2 * (t * d - n)) = d -> Z.even t = true).
Proof.
  intros Hd. unfold round_half_even. cbv zeta.
  pose proof (Z.div_mod n d ltac:(lia)) as Hdm.
  pose proof (Z.mod_pos_bound n d Hd) as Hr.
  set (q := (n / d)%Z) in *. set (r := (n mod d)%Z) in *.
  destruct (Z.ltb_spec (2 * r) d) as [Hlt|Hge].
  - split; [nia|]. intros Habs. exfalso. nia.
  - destruct (Z.ltb_spec d (2 * r)) as [Hgt|Hle].
    + split; [nia|]. intros Habs. exfalso. nia.
    + destruct (Z.even q) eqn:Heven.
      * split; [nia|]. intros _. exact Heven.
      * split; [nia|]. intros _.
        replace (q + 1)%Z with (Z.succ q) by lia.
        rewrite Z.even_succ, <- Z.negb_even, Heven. reflexivity.
Qed.

Lemma tenths_nearest (m : positive) (e : Z) : nearest_tenths m e (tenths m e).
Proof.
  unfold nearest_tenths, tenths. destruct (Z.leb_spec 0 e) as [Hpos|Hneg].
  - reflexivity.
  - assert (Hd : (0 < 2 ^ (- e))%Z) by (apply Z.pow_pos_nonneg; lia).
    pose proof (round_half_even_nearest (Zpos m * 10) (2 ^ (- e)) Hd) as H.
    cbv zeta in *. replace (10 * Zpos m)%Z with (Zpos m * 10)%Z by lia.
    exact H.
Qed.

Lemma round_half_even_nonneg (n d : Z) :
  (0 <= n)%Z -> (0 < d)%Z -> (0 <= round_half_even n d)%Z.
Proof.
  intros Hn Hd. unfold round_half_even.
  pose proof (Z.div_pos n d Hn Hd).
  repeat match goal with |- context [if ?b then _ else _] => destruct b end; lia.
Qed.

Lemma tenths_nonneg (m : positive) (e : Z) : (0 <= tenths m e)%Z.
Proof.
  unfold tenths. destruct (Z.leb_spec 0 e).
  - pose proof (Z.pow_nonneg 2 e ltac:(lia)). nia.
  - apply round_half_even_nonneg; [lia|]. apply Z.pow_pos_nonneg; lia.
Qed.

(** [format(x, '.1f')] of a finite non-zero float: the nearest number of
    tenths, written with one decimal digit. *)
Lemma format_1f_finite (x : float) (s : bool) (m : positive) (e : Z) :
  Prim2SF x = S754_finite s m e ->
  exists t : Z,
    nearest_tenths m e t /\ (0 <= t)%Z /\ (0 <= t mod 10 < 10)%Z /\
    format_1f x = one_decimal_text s t.
Proof.
  intros Hx. exists (tenths m e). split; [apply tenths_nearest|].
  split; [apply tenths_nonneg|]. split; [apply Z.mod_pos_bound; lia|].
  unfold format_1f. rewrite Hx. reflexivity.
Qed.

(** The body of the manual [try], case by case. *)
Lemma single_predict_eq (m : Model) (input_df : DataFrame) (s : State) :
  single_predict m input_df s =
    let s0 := with_io s [io_predict (model_id m) input_df] in
    match predict (model_obj m) input_df with
    | Raise e => (s0, Raise e)
    | Ok preds =>
        match getitem preds 0 with
        | Raise e => (s0, Raise e)
        | Ok prediction =>
            match single_proba m input_df s0 with
            | (s1, Raise e) => (s1, Raise e)
            | (s1, Ok proba) =>
                (with_ui s1 [st_divider; st_metric "Risk Score" (risk_text proba);
                             verdict prediction], Ok tt)
            end
        end
    end.
Proof.
  unfold single_predict. unfold bind at 1. rewrite call_with_io.
  unfold bind at 1, lift at 1. cbv zeta.
  destruct (predict (model_obj m) input_df) as [preds|e]; [|reflexivity].
  unfold bind at 1, lift at 1.
  destruct (getitem preds 0) as [prediction|e]; [|reflexivity].
  unfold bind at 1.
  destruct (single_proba m input_df _) as [s1 [proba|e]]; [|reflexivity].
  unfold bind, emit, with_ui; cbn. now rewrite <- !app_assoc.
Qed.

(** The probability read for the record, case by case. *)
Lemma single_proba_eq (m : Model) (input_df : DataFrame) (s : State) :
  single_proba m input_df s =
    match predict_proba (model_obj m) with
    | None => (s, Ok (PyFloat 0))
    | Some pp =>
        (with_io s [io_predict_proba (model_id m) input_df],
         result_bind (pp input_df) (fun arr =>
           result_bind (arr_row arr 0) (fun row =>
             result_bind (getitem row 1) (fun p =>
               Ok (NpFloat (arr_numpy arr) (arr_dtype arr) p)))))
    end.
Proof.
  unfold single_proba. destruct (predict_proba (model_obj m)) as [pp|];
    [|reflexivity].
  unfold bind at 1. rewrite call_with_io. unfold bind, lift, result_bind.
  destruct (pp input_df) as [arr|e]; [|reflexivity].
  destruct (arr_row arr 0) as [row|e]; [|reflexivity].
  destruct (getitem row 1); reflexivity.
Qed.

(** C5: with the class of the record predicted, (1) a model that has
    [predict_proba] is asked for the probabilities of the record, the
    probability reported is entry 1 of the vector of row 0, and the risk
    shown is the product of that probability and 100 under [.1f], the
    product being taken in binary64, or in binary32 when the array is of
    float32 and NumPy 2 keeps that width; (2) a model without it is not
    asked, nothing fails and the probability is 0.0; (3) [.1f] gives, for
    a finite value, its nearest number of tenths written with one decimal
    digit (after the percent sign of the f-string). *)
Theorem single_predict_risk :
  forall (m : Model) (input_df : DataFrame) (s : State)
         (preds : list pyval) (prediction : pyval),
    predict (model_obj m) input_df = Ok preds ->
    getitem preds 0 = Ok prediction ->
    let asked := io_predict (model_id m) input_df in
    (forall pp arr row p,
        predict_proba (model_obj m) = Some pp ->
        pp input_df = Ok arr ->
        nth_error (arr_rows arr) 0 = Some row ->
        nth_error row 1 = Some p ->
        let product :=
          match arr_numpy arr, arr_dtype arr with
          | NumPy2, Float32 =>
              SF2Prim (SFmul 24 128 (Prim2SF p) (Prim2SF 100))
          | _, _ => (p * 100)%float
          end in
        single_predict m input_df s =
          (mkState (proc s)
             (ui s ++ [st_divider;
                       st_metric "Risk Score" ("%" ++ format_1f product);
                       verdict prediction])
             (io s ++ [asked; io_predict_proba (model_id m) input_df])
             (frame s), Ok tt))
    /\ (predict_proba (model_obj m) = None ->
        single_predict m input_df s =
          (mkState (proc s)
             (ui s ++ [st_divider; st_metric "Risk Score" "%0.0";
                       verdict prediction])
             (io s ++ [asked]) (frame s), Ok tt))
    /\ (forall x sign mant e,
          Prim2SF x = S754_finite sign mant e ->
          exists t : Z,
            nearest_tenths mant e t /\ (0 <= t)%Z /\ (0 <= t mod 10 < 10)%Z /\
            format_1f x = one_decimal_text sign t).
Proof.
  intros m input_df s preds prediction Hpreds H0 asked.
  split; [|split].
  - intros pp arr row p Hpp Harr Hrow Hp product.
    rewrite single_predict_eq. cbv zeta. rewrite Hpreds, H0.
    rewrite single_proba_eq, Hpp, Harr. unfold result_bind, arr_row, getitem.
    rewrite Hrow, Hp. unfold with_ui, with_io, risk_text; cbn.
    rewrite <- app_assoc. subst product. unfold times_100, mul32.
    destruct (arr_numpy arr), (arr_dtype arr); reflexivity.
  - intros Hnone.
    rewrite single_predict_eq. cbv zeta. rewrite Hpreds, H0.
    rewrite single_proba_eq, Hnone. reflexivity.
  - intros x sign mant e Hx. exact (format_1f_finite x sign mant e Hx).
Qed.

Lemma single_predict_risk_witness :
  let m := mkModel 0 float32_model in
  let df := feature_record
              (mkSelection 50 Male TypicalAngina 120 200 FbsFalse EcgNormal 150
                           AnginaNo 0 Upsloping 0 ThalNormal) in
  single_predict m df (run_start process_start) =
    (mkState process_start
       [st_divider; st_metric "Risk Score" "%97.3"; disease_detected]
       [io_predict 0 df; io_predict_proba 0 df] None, Ok tt).
Proof.
  exact (proj1 (single_predict_risk (mkModel 0 float32_model)
                  (feature_record
                     (mkSelection 50 Male TypicalAngina 120 200 FbsFalse
                        EcgNormal 150 AnginaNo 0 Upsloping 0 ThalNormal))
                  (run_start process_start) [VInt 1] (VInt 1) eq_refl eq_refl)
               _ (mkArray NumPy2 Float32 2 [[0x1.b22dp-6; 0x1.f26e98p-1]%float])
               [0x1.b22dp-6; 0x1.f26e98p-1]%float 0x1.f26e98p-1%float
               eq_refl eq_refl eq_refl eq_refl).
Defined.

(** Some renderings of the risk: of Python floats, and of one probability
    held as float64 and as float32, whose products with 100 fall on either
    side of 97.35. *)
Example risk_text_examples :
  risk_text (PyFloat 0.5) = "%50.0" /\ risk_text (PyFloat 0) = "%0.0"
  /\ risk_text (PyFloat 1) = "%100.0"
  /\ risk_text (NpFloat NumPy2 Float64 0.0625) = "%6.2"
  /\ risk_text (NpFloat NumPy2 Float64 0.1875) = "%18.8"
  /\ risk_text (NpFloat NumPy2 Float32 0.59375) = "%59.4"
  /\ risk_text (NpFloat NumPy2 Float64 0x1.f26e98p-1) = "%97.4"
  /\ risk_text (NpFloat NumPy1 Float32 0x1.f26e98p-1) = "%97.4"
  /\ risk_text (NpFloat NumPy2 Float32 0x1.f26e98p-1) = "%97.3".
Proof. repeat split; vm_compute; reflexivity. Qed.

(** Python's [==] against [1] and against a string, by kind of value. *)
Lemma is_positive_iff (v : pyval) : is_positive v = true <-> positive_class v.
Proof.
  unfold is_positive, positive_class, equals_one.
  destruct v as [z|f|str|b]; cbn [py_eq].
  - rewrite orb_false_r, Z.eqb_eq. split; [auto|]. intros [H|H]; [exact H|discriminate].
  - rewrite orb_false_r. split; [auto|]. intros [H|H]; [exact H|discriminate].
  - cbn [orb]. rewrite String.eqb_eq. split.
    + intros ->. now right.
    + intros [[]|[= ->]]. reflexivity.
  - rewrite orb_false_r. destruct b; cbn; split; auto;
      intros [H|H]; discriminate.
Qed.

(** C2 (as amended): when the single-record predictor completes, the
    verdict it shows is that of the class predicted for the record:
    disease detected when that value equals 1 or is the string label
    [Presence], normal for every other value. *)
Theorem verdict_of_prediction :
  forall (m : Model) (input_df : DataFrame) (s s' : State),
    single_predict m input_df s = (s', Ok tt) ->
    exists preds prediction shown,
      predict (model_obj m) input_df = Ok preds /\
      nth_error preds 0 = Some prediction /\
      ui s' = shown ++ [verdict prediction] /\
      (positive_class prediction -> verdict prediction = disease_detected) /\
      (~ positive_class prediction -> verdict prediction = normal).
Proof.
  intros m input_df s s'. rewrite single_predict_eq. cbv zeta.
  destruct (predict (model_obj m) input_df) as [preds|e]; [|discriminate].
  unfold getitem. destruct (nth_error preds 0) as [prediction|] eqn:H0;
    [|discriminate].
  destruct (single_proba m input_df _) as [s1 [proba|e]]; [|discriminate].
  intros [= <-].
  exists preds, prediction,
    (ui s1 ++ [st_divider; st_metric "Risk Score" (risk_text proba)]).
  split; [reflexivity|]. split; [exact H0|]. split.
  - cbn. now rewrite <- app_assoc.
  - unfold verdict. split; intros H.
    + apply is_positive_iff in H. now rewrite H.
    + destruct (is_positive prediction) eqn:E; [|reflexivity].
      apply is_positive_iff in E. contradiction.
Qed.

Lemma verdict_of_prediction_witness :
  let df := feature_record
              (mkSelection 50 Male TypicalAngina 120 200 FbsFalse EcgNormal 150
                           AnginaNo 0 Upsloping 0 ThalNormal) in
  exists preds prediction shown,
    predict plain_model df = Ok preds /\
    nth_error preds 0 = Some prediction /\
    ui (fst (single_predict (mkModel 0 plain_model) df (run_start process_start)))
      = shown ++ [verdict prediction] /\
    (positive_class prediction -> verdict prediction = disease_detected) /\
    (~ positive_class prediction -> verdict prediction = normal).
Proof.
  exact (verdict_of_prediction (mkModel 0 plain_model)
           (feature_record
              (mkSelection 50 Male TypicalAngina 120 200 FbsFalse EcgNormal 150
                           AnginaNo 0 Upsloping 0 ThalNormal))
           (run_start process_start) _ eq_refl).
Defined.

(** C2 (as stated) fails for a model trained on string labels: a predicted
    class [Presence] is not the value 1, and the verdict is disease
    detected. *)
Lemma verdict_presence_label :
  let df := feature_record
              (mkSelection 50 Male TypicalAngina 120 200 FbsFalse EcgNormal 150
                           AnginaNo 0 Upsloping 0 ThalNormal) in
  predict label_model df = Ok [VStr "Presence"] /\
  py_eq (VStr "Presence") (VInt 1) = false /\
  single_predict (mkModel 0 label_model) df (run_start process_start) =
    (mkState process_start
       [st_divider; st_metric "Risk Score" "%0.0"; disease_detected]
       [io_predict 0 df] None, Ok tt).
Proof. repeat split. Qed.

(** Verdicts by kind of value. *)
Example verdict_examples :
  verdict (VInt 1) = disease_detected /\ verdict (VInt 0) = normal /\
  verdict (VInt 2) = normal /\ verdict (VFloat 1) = disease_detected /\
  verdict (VFloat 0.5) = normal /\ verdict (VBool true) = disease_detected /\
  verdict (VStr "Presence") = disease_detected /\
  verdict (VStr "Absence") = normal /\ verdict (VStr "1") = normal.
Proof. repeat split. Qed.

(** ** Batch Predictor *)

(** Lines 161-165, case by case. *)
Lemma batch_augment_eq (m : Model) (df : DataFrame) (s : State) :
  frame s = Some df ->
  batch_augment m s =
    let s0 := with_io s [io_predict (model_id m) df] in
    match predict (model_obj m) df with
    | Raise e => (s0, Raise e)
    | Ok preds =>
        match setitem df "Prediction" preds with
        | Raise e => (s0, Raise e)
        | Ok df1 =>
            match predict_proba (model_obj m) with
            | None => (with_frame s0 df1, Ok tt)
            | Some pp =>
                let s1 :=
                  with_io (with_frame s0 df1)
                          [io_predict_proba (model_id m) df1] in
                match pp df1 with
                | Raise e => (s1, Raise e)
                | Ok arr =>
                    match arr_col arr 1 with
                    | Raise e => (s1, Raise e)
                    | Ok col =>
                        match setitem df1 "Probability" (map VFloat col) with
                        | Raise e => (s1, Raise e)
                        | Ok df2 => (with_frame s1 df2, Ok tt)
                        end
                    end
                end
            end
        end
    end.
Proof.
  intros Hdf. destruct s as [p page calls fr]. cbn [frame] in Hdf. subst fr.
  unfold batch_augment, df_setitem, get_df, put_df.
  unfold bind, call, lift, ret, with_io, with_frame; cbn [proc ui io frame].
  destruct (predict (model_obj m) df) as [preds|e]; [|reflexivity].
  destruct (setitem df "Prediction" preds) as [df1|e]; [|reflexivity].
  cbn [proc ui io frame].
  destruct (predict_proba (model_obj m)) as [pp|]; [|reflexivity].
  cbn [proc ui io frame].
  destruct (pp df1) as [arr|e]; [|reflexivity].
  destruct (arr_col arr 1) as [col|e]; [|reflexivity].
  destruct (setitem df1 "Probability" (map VFloat col)); reflexivity.
Qed.


(** *** Writing a column *)

Lemma existsb_fst (key : string) (cols : list (string * list pyval)) :
  existsb (String.eqb key) (map fst cols)
    = existsb (fun c => String.eqb key (fst c)) cols.
Proof.
  induction cols as [|c cols IH]; cbn; [reflexivity|]. now rewrite IH.
Qed.

Lemma set_column_fresh (key : string) (value : list pyval)
    (cols : list (string * list pyval)) :
  existsb (String.eqb key) (map fst cols) = false ->
  set_column key value cols = cols ++ [(key, value)].
Proof.
  intros H. unfold set_column. rewrite existsb_fst in H. now rewrite H.
Qed.

Lemma set_column_names (key : string) (value : list pyval)
    (cols : list (string * list pyval)) :
  existsb (String.eqb key) (map fst (set_column key value cols)) = true.
Proof.
  unfold set_column. rewrite existsb_fst.
  destruct (existsb (fun c => String.eqb key (fst c)) cols) eqn:E.
  - apply existsb_exists in E. destruct E as (c & Hin & Hc).
    apply existsb_exists.
    exists (if String.eqb key (fst c) then (key, value) else c).
    split; [apply in_map_iff; exists c; auto|].
    rewrite Hc. cbn. apply String.eqb_refl.
  - rewrite existsb_app. cbn. rewrite String.eqb_refl.
    now rewrite orb_true_r.
Qed.

(** Refilling the cells of the columns keeps their names. *)
Lemma map_fst_refill {A B C} (g : A * B -> C) (cols : list (A * B)) :
  map fst (map (fun c => (fst c, g c)) cols) = map fst cols.
Proof.
  induction cols as [|c cols IH]; cbn; [reflexivity|]. now rewrite IH.
Qed.

(** After [df[key] = value] the frame has a column [key]. *)
Lemma setitem_has_column (df df' : DataFrame) (key : string)
    (value : list pyval) :
  setitem df key value = Ok df' -> has_column key df' = true.
Proof.
  unfold setitem, has_column, column_names.
  destruct (_ && _).
  - intros [= <-]. apply set_column_names.
  - destruct (Nat.eqb _ _); [|discriminate].
    intros [= <-]. apply set_column_names.
Qed.

(** A new name on a frame with rows: the column is appended, everything
    else stays, and the value has one cell per row. *)
Lemma setitem_fresh (df df' : DataFrame) (key : string) (value : list pyval) :
  0 < df_index df ->
  has_column key df = false ->
  setitem df key value = Ok df' ->
  df' = mkDF (df_index df) (df_columns df ++ [(key, value)]) /\
  List.length value = df_index df.
Proof.
  intros Hrows Hfresh. unfold setitem.
  destruct (Nat.eqb_spec (df_index df) 0) as [H0|_]; [lia|]. cbn [andb].
  destruct (Nat.eqb_spec (List.length value) (df_index df)) as [Hlen|_];
    [|discriminate].
  intros [= <-]. rewrite set_column_fresh by exact Hfresh. auto.
Qed.

Lemma has_column_app (key : string) (df : DataFrame) (k : string)
    (v : list pyval) :
  key <> k ->
  has_column key (mkDF (df_index df) (df_columns df ++ [(k, v)]))
    = has_column key df.
Proof.
  intros Hne. unfold has_column, column_names. cbn [df_columns].
  rewrite map_app, existsb_app. cbn.
  destruct (String.eqb_spec key k); [contradiction|].
  now rewrite !orb_false_r.
Qed.

(** C3 (as amended): for every input dataset that has at least one row and
    no column already called [Prediction] (nor [Probability], when the
    model estimates probabilities) and on which scoring succeeds, the
    output has the same number of rows, keeps every original column, name
    and cells, in place, and has exactly the new columns [Prediction] and
    [Probability] after them when the model estimates probabilities, and
    exactly [Prediction] otherwise; each new column has one cell per
    row. *)
Theorem batch_augment_shape :
  forall (m : Model) (df : DataFrame) (s s' : State),
    frame s = Some df ->
    0 < df_index df ->
    has_column "Prediction" df = false ->
    (predict_proba (model_obj m) <> None ->
     has_column "Probability" df = false) ->
    batch_augment m s = (s', Ok tt) ->
    exists (out : DataFrame) (preds : list pyval),
      frame s' = Some out /\
      df_index out = df_index df /\
      List.length preds = df_index df /\
      match predict_proba (model_obj m) with
      | None => df_columns out = df_columns df ++ [("Prediction", preds)]
      | Some _ =>
          exists probs : list float,
            List.length probs = df_index df /\
            df_columns out =
              df_columns df ++ [("Prediction", preds);
                                ("Probability", map VFloat probs)]
      end.
Proof.
  intros m df s s' Hdf Hrows Hpred Hprob.
  rewrite (batch_augment_eq m df s Hdf). cbv zeta.
  destruct (predict (model_obj m) df) as [preds|e]; [|discriminate].
  destruct (setitem df "Prediction" preds) as [df1|e] eqn:Hset1; [|discriminate].
  destruct (setitem_fresh df df1 _ preds Hrows Hpred Hset1) as [-> Hlen].
  destruct (predict_proba (model_obj m)) as [pp|].
  - destruct (pp _) as [arr|e]; [|discriminate].
    destruct (arr_col arr 1) as [col|e]; [|discriminate].
    destruct (setitem _ "Probability" (map VFloat col)) as [df2|e] eqn:Hset2;
      [|discriminate].
    intros [= <-].
    apply setitem_fresh in Hset2; cbn [df_index df_columns]; [|exact Hrows|].
    + destruct Hset2 as [-> Hlen2]. cbn [df_index df_columns] in *.
      exists (mkDF (df_index df)
                   ((df_columns df ++ [("Prediction", preds)])
                    ++ [("Probability", map VFloat col)])), preds.
      repeat split; auto. exists col. rewrite length_map in Hlen2.
      split; [exact Hlen2|]. cbn [df_columns]. now rewrite <- app_assoc.
    + rewrite has_column_app by discriminate. apply Hprob. discriminate.
  - intros [= <-].
    exists (mkDF (df_index df) (df_columns df ++ [("Prediction", preds)])), preds.
    repeat split; auto.
Qed.

Lemma batch_augment_shape_witness :
  exists (out : DataFrame) (preds : list pyval),
    frame (fst (batch_augment (mkModel 0 scoring_model)
                  (with_frame (run_start process_start) two_patients)))
      = Some out /\
    df_index out = 2 /\
    List.length preds = 2 /\
    exists probs : list float,
      List.length probs = 2 /\
      df_columns out =
        [("Age", [VInt 50; VInt 63]); ("Sex", [VInt 1; VInt 0])]
        ++ [("Prediction", preds); ("Probability", map VFloat probs)].
Proof.
  exact (batch_augment_shape (mkModel 0 scoring_model) two_patients
           (with_frame (run_start process_start) two_patients)
           _ eq_refl (le_S 1 1 (le_n 1)) eq_refl (fun _ => eq_refl) eq_refl).
Defined.

(** C3 (as stated) fails for an upload that already has a column called
    [Prediction]: scoring succeeds, the original column is overwritten and
    only one column is new although the model estimates probabilities. *)
Lemma batch_augment_overwrites :
  batch_augment (mkModel 0 scoring_model)
                (with_frame (run_start process_start) scored_before)
  = (mkState process_start []
       [io_predict 0 scored_before;
        io_predict_proba 0 (mkDF 1 [("Age", [VInt 50]); ("Prediction", [VInt 1])])]
       (Some (mkDF 1 [("Age", [VInt 50]); ("Prediction", [VInt 1]);
                      ("Probability", [VFloat 0.75])])),
     Ok tt).
Proof. reflexivity. Qed.

(** The row count is not kept either when the upload has no rows and the
    model still answers: the frame takes the length of the answer. *)
Example batch_augment_empty_index :
  frame (fst (batch_augment (mkModel 0 constant_model)
                (with_frame (run_start process_start) (mkDF 0 [("Age", [])]))))
  = Some (mkDF 1 [("Age", [NaN]); ("Prediction", [VInt 1])]).
Proof. reflexivity. Qed.

(** C10 (as amended): when the model estimates probabilities, every call of
    [predict_proba] is handed a frame that has the [Prediction] column;
    once [predict] has answered and its answer is stored, the calls are
    [predict] on the uploaded frame and then [predict_proba] on the frame
    after the assignment; when the upload has no column called
    [Prediction] the second frame has the uploaded column names plus
    [Prediction], so the two column sets differ; and if [predict_proba]
    then raises, the frame stays as assigned, [Prediction] included. *)
Theorem predict_proba_after_prediction :
  forall (m : Model) (pp : DataFrame -> result ndarray2) (df : DataFrame)
         (s : State),
    frame s = Some df ->
    predict_proba (model_obj m) = Some pp ->
    (forall events id seen,
        io (fst (batch_augment m s)) = io s ++ events ->
        In (io_predict_proba id seen) events ->
        has_column "Prediction" seen = true)
    /\ forall preds df1,
        predict (model_obj m) df = Ok preds ->
        setitem df "Prediction" preds = Ok df1 ->
        let calls := [io_predict (model_id m) df;
                      io_predict_proba (model_id m) df1] in
        io (fst (batch_augment m s)) = io s ++ calls
        /\ (has_column "Prediction" df = false ->
            column_names df1 = column_names df ++ ["Prediction"])
        /\ (forall e, pp df1 = Raise e ->
              batch_augment m s =
                (mkState (proc s) (ui s) (io s ++ calls) (Some df1), Raise e)).
Proof.
  intros m pp df s Hdf Hpp. split.
  - intros events id seen. rewrite (batch_augment_eq m df s Hdf). cbv zeta.
    rewrite Hpp.
    destruct (predict (model_obj m) df) as [preds|e];
      [destruct (setitem df "Prediction" preds) as [df1|e] eqn:Hset|].
    + assert (Hio : forall r : State * result unit,
                 io (fst r) = io s ++ [io_predict (model_id m) df;
                                       io_predict_proba (model_id m) df1] ->
                 io (fst r) = io s ++ events ->
                 In (io_predict_proba id seen) events ->
                 has_column "Prediction" seen = true).
      { intros r -> Heq Hin. apply app_inv_head in Heq. subst events.
        destruct Hin as [Hin|[Hin|[]]]; [discriminate|].
        injection Hin as _ <-. exact (setitem_has_column _ _ _ _ Hset). }
      destruct (pp df1) as [arr|e];
        [destruct (arr_col arr 1) as [col|e];
         [destruct (setitem df1 "Probability" (map VFloat col))|]|];
        apply Hio; cbn; now rewrite <- app_assoc.
    + cbn. intros Heq Hin. apply app_inv_head in Heq. subst events.
      destruct Hin as [Hin|[]]. discriminate.
    + cbn. intros Heq Hin. apply app_inv_head in Heq. subst events.
      destruct Hin as [Hin|[]]. discriminate.
  - intros preds df1 Hpreds Hset calls.
    rewrite (batch_augment_eq m df s Hdf). cbv zeta.
    rewrite Hpreds, Hset, Hpp. split; [|split].
    + destruct (pp df1) as [arr|e];
        [destruct (arr_col arr 1) as [col|e];
         [destruct (setitem df1 "Probability" (map VFloat col))|]|];
        cbn; now rewrite <- app_assoc.
    + intros Hfresh. unfold setitem in Hset.
      destruct (_ && _); [|destruct (Nat.eqb _ _); [|discriminate]];
        injection Hset as <-; unfold column_names; cbn [df_columns].
      * rewrite set_column_fresh, map_app, map_fst_refill; cbn [fst map].
        -- reflexivity.
        -- rewrite map_fst_refill. exact Hfresh.
      * rewrite set_column_fresh by exact Hfresh. now rewrite map_app.
    + intros e He. rewrite He. unfold with_io, with_frame; cbn.
      now rewrite <- app_assoc.
Qed.

Lemma predict_proba_after_prediction_witness :
  let df1 := mkDF 2 [("Age", [VInt 50; VInt 63]); ("Sex", [VInt 1; VInt 0]);
                     ("Prediction", [VInt 1; VInt 1])] in
  let calls := [io_predict 0 two_patients; io_predict_proba 0 df1] in
  column_names df1 = column_names two_patients ++ ["Prediction"] /\
  batch_augment (mkModel 0 strict_model)
                (with_frame (run_start process_start) two_patients)
  = (mkState process_start [] calls (Some df1), Raise schema_error).
Proof.
  pose proof (proj2 (predict_proba_after_prediction (mkModel 0 strict_model) _
                       two_patients
                       (with_frame (run_start process_start) two_patients)
                       eq_refl eq_refl)
                    [VInt 1; VInt 1] _ eq_refl eq_refl) as H.
  cbv zeta in H. destruct H as (_ & Hnames & Hraise).
  split; [exact (Hnames eq_refl)|exact (Hraise schema_error eq_refl)].
Defined.

(** C10 (as stated) fails for an upload that already has a column called
    [Prediction] holding what the model predicts: [predict] and
    [predict_proba] are handed the same frame, hence the same columns. *)
Lemma predict_proba_same_columns :
  io (fst (batch_augment (mkModel 0 scoring_model)
             (with_frame (run_start process_start) scored_same)))
  = [io_predict 0 scored_same; io_predict_proba 0 scored_same].
Proof. reflexivity. Qed.

(** The body of the inner [try]: scoring, then the results and the
    download. *)
Lemma batch_analysis_eq (repr_float : float -> string) (m : Model)
    (df : DataFrame) (s : State) :
  frame s = Some df ->
  batch_analysis repr_float m s =
    match batch_augment m s with
    | (s1, Raise e) => (s1, Raise e)
    | (s1, Ok _) =>
        match frame s1 with
        | Some out =>
            (with_ui s1 [st_success "Analysis Completed!";
                         st_dataframe (head out); export repr_float out],
             Ok tt)
        | None =>
            (with_ui s1 [st_success "Analysis Completed!"],
             Raise (NameError "df"))
        end
    end.
Proof.
  intros Hdf. unfold batch_analysis. unfold bind at 1.
  destruct (batch_augment m s) as [s1 [[]|e]]; [|reflexivity].
  unfold bind at 1. rewrite emit_with_ui. unfold bind at 1, get_df.
  cbn [frame with_ui].
  destruct (frame s1) as [out|]; [|reflexivity].
  unfold bind, emit, with_ui; cbn. now rewrite <- !app_assoc.
Qed.

(** The batch tab once a file is read and the button pressed. *)
Lemma batch_tab_started (repr_float : float -> string) (m : Model)
    (df : DataFrame) (s : State) :
  batch_tab repr_float m (mkUpload (Some (Ok df)) true) s =
    match batch_analysis repr_float m
            (with_frame (with_ui s (batch_preview df)) df) with
    | (s1, Ok _) => (s1, Ok tt)
    | (s1, Raise e) => (with_ui s1 (batch_report e), Ok tt)
    end.
Proof.
  unfold batch_tab; cbn [uploaded_file start_batch].
  unfold bind at 1. rewrite emit_with_ui.
  unfold try_except at 1. unfold bind at 1, lift at 1.
  unfold bind at 1, put_df at 1. unfold bind at 1. rewrite emit_with_ui.
  unfold bind at 1. rewrite emit_with_ui.
  unfold try_except at 1.
  replace (with_ui (with_ui _ _) _)
    with (with_frame (with_ui s (batch_preview df)) df)
    by (unfold with_ui, with_frame, batch_preview; cbn;
        now rewrite <- !app_assoc).
  destruct (batch_analysis repr_float m _) as [s1 [[]|e]]; [reflexivity|].
  unfold bind, emit, with_ui, batch_report; cbn. now rewrite <- app_assoc.
Qed.



(** An upload that lacks a column, as pandas reports it when the model
    selects its columns by name: the key has apostrophes, so [str] shows
    it between double quotes. *)
Example missing_column_key_error :
  ui (fst (batch_tab format_1f (mkModel 0 missing_column_model)
             (mkUpload (Some (Ok missing_sex)) true) (run_start process_start)))
  = batch_preview missing_sex
    ++ [st_error ("Error: " ++ dquote ++ "['Sex'] not in index" ++ dquote);
        batch_hint].
Proof. reflexivity. Qed.

(** The end-to-end scenario: a process with the model loaded, an upload
    that lacks a required column, the button pressed. The run completes,
    the page ends with the error and the hint, and the process is as
    before. *)
Example missing_column_run :
  let w := world_with_model ["models/best_model.pkl"] strict_model in
  let m := mkModel 0 strict_model in
  let p := mkProcess (Some (Some m, [])) 1 in
  let f := mkForm 50 "Male" "Typical Angina (1)" 120 200 "False (0)"
                  "Normal (0)" 150 "No (0)" 0 "Upsloping (1)" 0 "Normal (3)"
                  false in
  script_run format_1f w f (mkUpload (Some (Ok missing_sex)) true) p
  = (mkState p
       ([app_title; st_subheader "Enter Patient Details"]
        ++ batch_preview missing_sex ++ batch_report schema_error)
       [io_predict 0 missing_sex] (Some missing_sex), Ok tt).
Proof. reflexivity. Qed.

(** A run of the batch tab that succeeds: results and download. *)
Example batch_success_run :
  batch_tab (fun _ => "0.75") (mkModel 0 scoring_model)
            (mkUpload (Some (Ok two_patients)) true) (run_start process_start)
  = (let out := mkDF 2 [("Age", [VInt 50; VInt 63]);
                        ("Sex", [VInt 1; VInt 0]);
                        ("Prediction", [VInt 1; VInt 1]);
                        ("Probability", [VFloat 0.75; VFloat 0.75])] in
     (mkState process_start
        (batch_preview two_patients
         ++ [st_success "Analysis Completed!"; st_dataframe out;
             st_download_button "Download Results"
               ("Age,Sex,Prediction,Probability" ++ LF
                ++ "50,1,1,0.75" ++ LF ++ "63,0,1,0.75" ++ LF)
               "predictions.csv" "text/csv"])
        [io_predict 0 two_patients;
         io_predict_proba 0
           (mkDF 2 [("Age", [VInt 50; VInt 63]); ("Sex", [VInt 1; VInt 0]);
                    ("Prediction", [VInt 1; VInt 1])])]
        (Some out), Ok tt)).
Proof. reflexivity. Qed.

(** ** CSV export *)

(** *** Joining *)

Lemma append_empty_r (s : string) : (s ++ EmptyString)%string = s.
Proof. induction s as [|a s IH]; cbn; [reflexivity|]. now rewrite IH. Qed.

Lemma append_assoc (a b c : string) :
  ((a ++ b) ++ c)%string = (a ++ (b ++ c))%string.
Proof. induction a as [|x a IH]; cbn; [reflexivity|]. now rewrite IH. Qed.

Lemma concat_empty_cons (x : string) (xs : list string) :
  String.concat EmptyString (x :: xs)
    = (x ++ String.concat EmptyString xs)%string.
Proof.
  destruct xs as [|y xs]; cbn; [now rewrite append_empty_r|reflexivity].
Qed.

(** *** Integers as fields *)

(** Reading back the decimal text of an integer. *)
Lemma parse_int_str_Z (z : Z) : parse_int (str_Z z) = Some z.
Proof.
  unfold parse_int, str_Z. rewrite NilZero.isi.
  - cbv zeta. rewrite DecimalZ.of_to. now rewrite String.eqb_refl.
  - destruct z; cbn; try discriminate.
    intros [= H]. exact (DecimalPos.Unsigned.to_uint_nonnil _ H).
  - destruct z; cbn; try discriminate.
    intros [= H]. exact (DecimalPos.Unsigned.to_uint_nonnil _ H).
Qed.

(** *** One line of the file *)

Lemma quote_minimal_plain (fields : list string) :
  forallb (fun f => negb (has_special f)) fields = true ->
  map quote_minimal fields = fields.
Proof.
  induction fields as [|f rest IH]; [reflexivity|].
  cbn [forallb map]. intros H. apply andb_true_iff in H. destruct H as [Hf Hrest].
  apply negb_true_iff in Hf. unfold quote_minimal at 1. rewrite Hf.
  now rewrite (IH Hrest).
Qed.

Lemma writerow_nonempty (fields : list string) :
  Path.is_empty (String.concat "," (map quote_minimal fields)) = false ->
  writerow fields
    = (String.concat "," (map quote_minimal fields) ++ LF)%string.
Proof.
  unfold writerow.
  destruct (String.concat "," (map quote_minimal fields));
    [discriminate|]. now destruct fields.
Qed.

(** *** Rows and columns *)

(** Reading a list by its indices gives the list. *)
Lemma map_nth_indices {A} (l : list A) (d : A) :
  map (fun i => nth i l d) (seq 0 (List.length l)) = l.
Proof.
  apply (nth_ext _ _ (nth 0 l d) d).
  - now rewrite length_map, length_seq.
  - intros k Hk. rewrite length_map, length_seq in Hk.
    rewrite (map_nth (fun i => nth i l d) (seq 0 (List.length l)) 0 k).
    now rewrite seq_nth.
Qed.

(** The columns of the rows of a frame are its columns. *)
Lemma columns_of_row_cells (df : DataFrame) :
  forallb (fun c => Nat.eqb (List.length (snd c)) (df_index df)) (df_columns df)
    = true ->
  columns_of_rows (column_names df) (map (row_cells df) (seq 0 (df_index df)))
    = df_columns df.
Proof.
  intros Hlen. unfold columns_of_rows, column_names.
  set (cols := df_columns df) in *. set (n := df_index df) in *.
  set (G := fun jn : nat * string =>
              (snd jn, map (fun row => nth (fst jn) row NaN)
                           (map (row_cells df) (seq 0 n)))).
  apply (nth_ext _ _ (G (0, EmptyString)) (EmptyString, [])).
  - now rewrite length_map, length_combine, length_seq, !length_map, Nat.min_id.
  - intros j Hj.
    rewrite length_map, length_combine, length_seq, !length_map, Nat.min_id in Hj.
    rewrite (map_nth G).
    rewrite (combine_nth (seq 0 (List.length (map fst cols))) (map fst cols)
                         j 0 EmptyString)
      by now rewrite length_seq.
    rewrite seq_nth by now rewrite length_map.
    change EmptyString with (fst (EmptyString, @nil pyval)) at 1.
    rewrite (map_nth fst). unfold G. cbn [fst snd Nat.add].
    rewrite map_map.
    assert (Hcol : List.length (snd (nth j cols (EmptyString, []))) = n).
    { rewrite forallb_forall in Hlen. apply Nat.eqb_eq, Hlen, nth_In, Hj. }
    apply injective_projections; cbn [fst snd]; [reflexivity|].
    etransitivity;
      [|apply (map_nth_indices (snd (nth j cols (EmptyString, []))) NaN)].
    rewrite Hcol. apply map_ext. intros i. unfold row_cells. fold cols.
    rewrite (nth_indep _ NaN
               ((fun c : string * list pyval => nth i (snd c) NaN)
                  (EmptyString, [])))
      by now rewrite length_map.
    now rewrite (map_nth (fun c : string * list pyval => nth i (snd c) NaN)).
Qed.

(** *** Reading the export back *)

Lemma add_chars_nil (r : csv_read) : add_chars EmptyString r = r.
Proof. now destruct r as [[f row] rows]. Qed.

Lemma add_char_chars (c : ascii) (f : string) (r : csv_read) :
  add_char c (add_chars f r) = add_chars (String c f) r.
Proof. now destruct r as [[g row] rows]. Qed.

(** A quoted field is read to its closing quote, whatever it holds. *)
Lemma scan_quoted (f tail : string) :
  csv_scan InQuoted (double_quotes f ++ String dquote_char tail)
  = add_chars f (csv_scan AfterQuote tail).
Proof.
  induction f as [|c f IH].
  - cbn [double_quotes append csv_scan]. rewrite Ascii.eqb_refl.
    now rewrite add_chars_nil.
  - cbn [double_quotes]. destruct (Ascii.eqb c dquote_char) eqn:E.
    + cbn [append csv_scan]. rewrite E. rewrite IH. apply add_char_chars.
    + cbn [append csv_scan]. rewrite E. rewrite IH. apply add_char_chars.
Qed.

Lemma special_char_tests (c : ascii) :
  special_char c = false ->
  Ascii.eqb c dquote_char = false /\ is_sep c = false.
Proof.
  unfold special_char, is_sep. intros H.
  apply orb_false_iff in H. destruct H as [H _].
  apply orb_false_iff in H. destruct H as [H H10].
  apply orb_false_iff in H. destruct H as [Hc Hq].
  now rewrite Hc, Hq, H10.
Qed.

(** A field without special characters is read as it is. *)
Lemma scan_plain (f tail : string) :
  has_special f = false ->
  csv_scan InPlain (f ++ tail) = add_chars f (csv_scan InPlain tail).
Proof.
  induction f as [|c f IH]; intros H.
  - cbn [append]. now rewrite add_chars_nil.
  - cbn [has_special] in H. apply orb_false_iff in H. destruct H as [Hc Hf].
    destruct (special_char_tests c Hc) as [_ Hsep].
    cbn [append csv_scan]. rewrite Hsep, (IH Hf). apply add_char_chars.
Qed.

Lemma sep_not_quote (c : ascii) :
  is_sep c = true -> Ascii.eqb c dquote_char = false.
Proof.
  unfold is_sep. intros H. apply orb_true_iff in H.
  destruct H as [H|H]; apply Ascii.eqb_eq in H; subst c; reflexivity.
Qed.

(** A separator ends the field, in whatever state but inside quotes. *)
Lemma scan_sep (st : csv_state) (c : ascii) (rest : string) :
  st <> InQuoted -> is_sep c = true ->
  csv_scan st (String c rest) = after_field c (csv_scan FieldStart rest).
Proof.
  intros Hst Hc. pose proof (sep_not_quote c Hc) as Hq.
  destruct st; cbn [csv_scan]; rewrite ?Hq, ?Hc; congruence.
Qed.

(** A field as the writer quotes it, up to the separator after it. *)
Lemma scan_field (f : string) (c : ascii) (rest : string) :
  is_sep c = true ->
  csv_scan FieldStart (quote_minimal f ++ String c rest)
  = add_chars f (after_field c (csv_scan FieldStart rest)).
Proof.
  intros Hc. unfold quote_minimal. destruct (has_special f) eqn:Hs.
  - unfold dquote. cbn [append]. rewrite append_assoc. cbn [append csv_scan].
    rewrite Ascii.eqb_refl, scan_quoted.
    now rewrite scan_sep by (discriminate || exact Hc).
  - destruct f as [|a f].
    + cbn [append]. rewrite add_chars_nil. now apply scan_sep.
    + cbn [has_special] in Hs. apply orb_false_iff in Hs. destruct Hs as [Ha Hf].
      destruct (special_char_tests a Ha) as [Hq Hsep].
      cbn [append csv_scan]. rewrite Hq, Hsep, (scan_plain _ _ Hf).
      rewrite scan_sep by (discriminate || exact Hc). apply add_char_chars.
Qed.

(** A line of fields as they are joined, up to its line feed. *)
Lemma scan_line (f : string) (fs : list string) (tail : string) :
  csv_scan FieldStart
    (String.concat "," (map quote_minimal (f :: fs)) ++ LF ++ tail)
  = (f, fs, records_of (csv_scan FieldStart tail)).
Proof.
  revert f. induction fs as [|g fs IH]; intros f.
  - cbn [map String.concat]. unfold LF. cbn [append].
    rewrite scan_field by reflexivity. unfold after_field; cbn [Ascii.eqb].
    destruct (csv_scan FieldStart tail) as [[h row] rows].
    cbn. now rewrite append_empty_r.
  - change (String.concat "," (map quote_minimal (f :: g :: fs)))
      with (quote_minimal f
            ++ String ","%char (String.concat "," (map quote_minimal (g :: fs))))%string.
    rewrite append_assoc. cbn [append].
    rewrite scan_field by reflexivity. rewrite IH.
    cbn. now rewrite append_empty_r.
Qed.

Lemma quote_minimal_empty (f : string) :
  quote_minimal f = EmptyString -> f = EmptyString.
Proof.
  unfold quote_minimal. destruct (has_special f); [discriminate|auto].
Qed.

Lemma concat_fields_empty (f : string) (fs : list string) :
  String.concat "," (map quote_minimal (f :: fs)) = EmptyString ->
  f = EmptyString /\ fs = [].
Proof.
  destruct fs as [|g fs].
  - cbn. intros H. split; [now apply quote_minimal_empty|reflexivity].
  - change (String.concat "," (map quote_minimal (f :: g :: fs)))
      with (quote_minimal f
            ++ String ","%char (String.concat "," (map quote_minimal (g :: fs))))%string.
    destruct (quote_minimal f); discriminate.
Qed.

(** A record as the writer writes it. *)
Lemma scan_writerow (f : string) (fs : list string) (tail : string) :
  csv_scan FieldStart (writerow (f :: fs) ++ tail)
  = (f, fs, records_of (csv_scan FieldStart tail)).
Proof.
  unfold writerow.
  destruct (String.concat "," (map quote_minimal (f :: fs))) as [|a line] eqn:E.
  - destruct (concat_fields_empty f fs E) as [-> ->].
    unfold dquote, LF. cbn [append csv_scan]. rewrite Ascii.eqb_refl.
    cbn. now destruct (csv_scan FieldStart tail) as [[h row] rows].
  - rewrite <- E, append_assoc. apply scan_line.
Qed.

Lemma scan_rows (rows : list (list string)) :
  Forall (fun r => r <> []) rows ->
  records_of (csv_scan FieldStart (String.concat EmptyString (map writerow rows)))
  = rows ++ [[EmptyString]].
Proof.
  induction 1 as [|r rows Hr _ IH]; [reflexivity|].
  destruct r as [|f fs]; [congruence|].
  cbn [map]. rewrite concat_empty_cons, scan_writerow. cbn [records_of app].
  now rewrite IH.
Qed.

Lemma to_csv_rows (repr_float : float -> string) (df : DataFrame) :
  to_csv repr_float df
  = String.concat EmptyString (map writerow (text_table repr_float df)).
Proof.
  unfold to_csv, text_table. cbn [map]. rewrite concat_empty_cons.
  now rewrite map_map.
Qed.

Lemma text_table_widths (repr_float : float -> string) (df : DataFrame) :
  Forall (fun record => List.length record = List.length (column_names df))
         (text_table repr_float df).
Proof.
  unfold text_table. constructor; [reflexivity|].
  apply Forall_forall. intros r Hr. apply in_map_iff in Hr.
  destruct Hr as (i & <- & _).
  unfold row_cells, column_names. now rewrite !length_map.
Qed.

(** Reading the export of a frame that has a column gives its table of
    texts. *)
Lemma csv_records_to_csv (repr_float : float -> string) (df : DataFrame) :
  df_columns df <> [] ->
  csv_records (to_csv repr_float df) = Some (text_table repr_float df).
Proof.
  intros Hcols. unfold csv_records. rewrite to_csv_rows, scan_rows.
  - rewrite rev_app_distr. cbn [rev app]. now rewrite rev_involutive.
  - eapply Forall_impl; [|apply text_table_widths].
    intros r Hr Hnil. subst r. cbn in Hr. unfold column_names in Hr.
    symmetry in Hr. apply length_zero_iff_nil, map_eq_nil in Hr. contradiction.
Qed.

Lemma uniform_columns (kind : pyval -> bool) (df : DataFrame) :
  uniform kind df = true ->
  forallb (fun c => Nat.eqb (List.length (snd c)) (df_index df)) (df_columns df)
    = true.
Proof.
  unfold uniform. intros H. apply forallb_forall. intros c Hc.
  rewrite forallb_forall in H. specialize (H c Hc).
  apply andb_true_iff in H. tauto.
Qed.

Lemma uniform_rows (kind : pyval -> bool) (df : DataFrame) (i : nat) :
  uniform kind df = true -> i < df_index df ->
  forallb kind (row_cells df i) = true.
Proof.
  unfold uniform, row_cells. intros Hcells Hi.
  induction (df_columns df) as [|c cols IH]; [reflexivity|].
  cbn [forallb map] in *. apply andb_true_iff in Hcells.
  destruct Hcells as [Hc Hrest]. apply andb_true_iff in Hc.
  destruct Hc as [Hlen Hkind]. apply Nat.eqb_eq in Hlen.
  rewrite (IH Hrest), andb_true_r.
  rewrite forallb_forall in Hkind. apply Hkind, nth_In. lia.
Qed.

Lemma map_injective_on {A B} (f : A -> B) (P : A -> bool) (l l' : list A) :
  (forall x y, P x = true -> P y = true -> f x = f y -> x = y) ->
  forallb P l = true -> forallb P l' = true ->
  map f l = map f l' -> l = l'.
Proof.
  intros Hinj. revert l'. induction l as [|x l IH]; intros [|y l'];
    cbn [map forallb]; try discriminate; [reflexivity|].
  intros Hl Hl' [= Hxy Hrest].
  apply andb_true_iff in Hl, Hl'. destruct Hl as [Hx Hl], Hl' as [Hy Hl'].
  f_equal; [now apply Hinj|now apply IH].
Qed.

(** Two frames of one kind of values that its text tells apart are equal
    when their tables of texts are. *)
Lemma text_table_determines (repr_float : float -> string)
    (kind : pyval -> bool) (a b : DataFrame) :
  (forall x y, kind x = true -> kind y = true ->
               cell_text repr_float x = cell_text repr_float y -> x = y) ->
  uniform kind a = true -> uniform kind b = true ->
  text_table repr_float a = text_table repr_float b -> a = b.
Proof.
  intros Hinj Ha Hb. unfold text_table. intros [= Hnames Hrows].
  assert (Hn : df_index a = df_index b).
  { apply (f_equal (@List.length _)) in Hrows.
    now rewrite !length_map, !length_seq in Hrows. }
  assert (Hcells : map (row_cells a) (seq 0 (df_index a))
                   = map (row_cells b) (seq 0 (df_index a))).
  { apply map_ext_in. intros i Hi. apply in_seq in Hi.
    apply (map_injective_on (cell_text repr_float) kind).
    - exact Hinj.
    - apply uniform_rows; [exact Ha|lia].
    - apply uniform_rows; [exact Hb|lia].
    - rewrite <- Hn in Hrows.
      assert (Hi' : In i (seq 0 (df_index a))) by (apply in_seq; lia).
      exact (proj1 map_ext_in_iff Hrows i Hi'). }
  pose proof (columns_of_row_cells a (uniform_columns kind a Ha)) as Hca.
  pose proof (columns_of_row_cells b (uniform_columns kind b Hb)) as Hcb.
  rewrite <- Hn, <- Hnames, <- Hcells, Hca in Hcb.
  destruct a as [na ca], b as [nb cb]. cbn in *. now subst.
Qed.

Lemma str_Z_injective (x y : Z) : str_Z x = str_Z y -> x = y.
Proof.
  intros H. apply (f_equal parse_int) in H.
  rewrite !parse_int_str_Z in H. now injection H.
Qed.

(** Integers are told apart by their text. *)
Lemma int_cells_told_apart (repr_float : float -> string) (x y : pyval) :
  is_int x = true -> is_int y = true ->
  cell_text repr_float x = cell_text repr_float y -> x = y.
Proof.
  destruct x as [x| | |], y as [y| | |]; try discriminate.
  cbn [cell_text]. intros _ _ H. f_equal. now apply str_Z_injective.
Qed.

(** After a successful scoring [df] is bound to a frame that has a
    column. *)
Lemma batch_augment_has_column (m : Model) (df : DataFrame) (s s' : State) :
  frame s = Some df ->
  batch_augment m s = (s', Ok tt) ->
  exists out, frame s' = Some out /\ df_columns out <> [].
Proof.
  intros Hdf. rewrite (batch_augment_eq m df s Hdf). cbv zeta.
  assert (Hcol : forall d key value d',
             setitem d key value = Ok d' -> df_columns d' <> []).
  { intros d key value d' Hset Hnil.
    apply setitem_has_column in Hset. unfold has_column, column_names in Hset.
    rewrite Hnil in Hset. discriminate. }
  destruct (predict (model_obj m) df) as [preds|e]; [|discriminate].
  destruct (setitem df "Prediction" preds) as [df1|e] eqn:H1; [|discriminate].
  destruct (predict_proba (model_obj m)) as [pp|].
  - destruct (pp df1) as [arr|e]; [|discriminate].
    destruct (arr_col arr 1) as [col|e]; [|discriminate].
    destruct (setitem df1 "Probability" (map VFloat col)) as [df2|e] eqn:H2;
      [|discriminate].
    intros [= <-]. exists df2. split; [reflexivity|]. exact (Hcol _ _ _ _ H2).
  - intros [= <-]. exists df1. split; [reflexivity|]. exact (Hcol _ _ _ _ H1).
Qed.

(** C9 (as amended): for every augmented dataset the download is the
    UTF-8 encoding of its CSV text, with one field per column in every
    record, none for an index. When no name and no cell text holds a
    carriage return, reading that text back gives the column names as its
    first record and then, row by row, the text of every cell; so two
    datasets with the same export have the same names, the same number of
    rows and the same cell texts, and they are the same dataset when their
    values are of a kind that its text tells apart. (The text does not
    tell the type of a value: see [export_loses_types].) *)
Theorem export_reads_back :
  forall (repr_float : float -> string) (m : Model) (df : DataFrame)
         (s s' : State),
    frame s = Some df ->
    batch_augment m s = (s', Ok tt) ->
    exists out,
      frame s' = Some out /\
      export repr_float out =
        st_download_button "Download Results"
          (encode_utf8 (to_csv repr_float out)) "predictions.csv" "text/csv" /\
      (forall i, List.length (map (cell_text repr_float) (row_cells out i))
                 = List.length (column_names out)) /\
      (no_carriage_return repr_float out = true ->
       csv_records (encode_utf8 (to_csv repr_float out))
         = Some (column_names out
                 :: map (fun i => map (cell_text repr_float) (row_cells out i))
                        (seq 0 (df_index out))) /\
       (forall other,
           df_columns other <> [] ->
           to_csv repr_float other = to_csv repr_float out ->
           column_names other = column_names out /\
           df_index other = df_index out /\
           forall i, i < df_index out ->
             map (cell_text repr_float) (row_cells other i)
             = map (cell_text repr_float) (row_cells out i)) /\
       (forall (kind : pyval -> bool) other,
           (forall x y, kind x = true -> kind y = true ->
                        cell_text repr_float x = cell_text repr_float y ->
                        x = y) ->
           uniform kind out = true ->
           uniform kind other = true ->
           df_columns other <> [] ->
           to_csv repr_float other = to_csv repr_float out ->
           other = out)).
Proof.
  intros repr_float m df s s' Hdf Hok.
  destruct (batch_augment_has_column m df s s' Hdf Hok) as (out & Hout & Hcols).
  assert (Hsame : forall other,
             df_columns other <> [] ->
             to_csv repr_float other = to_csv repr_float out ->
             text_table repr_float other = text_table repr_float out).
  { intros other Hother Htext.
    pose proof (csv_records_to_csv repr_float other Hother) as Ha.
    rewrite Htext, (csv_records_to_csv repr_float out Hcols) in Ha.
    congruence. }
  exists out. split; [exact Hout|]. split; [reflexivity|]. split.
  { intros i. unfold row_cells, column_names. now rewrite !length_map. }
  intros _. split.
  { exact (csv_records_to_csv repr_float out Hcols). }
  split.
  - intros other Hother Htext. specialize (Hsame other Hother Htext).
    unfold text_table in Hsame. injection Hsame as Hnames Hrows.
    assert (Hn : df_index other = df_index out).
    { apply (f_equal (@List.length _)) in Hrows.
      now rewrite !length_map, !length_seq in Hrows. }
    split; [exact Hnames|]. split; [exact Hn|].
    intros i Hi. rewrite Hn in Hrows.
    apply (proj1 map_ext_in_iff Hrows i). apply in_seq. lia.
  - intros kind other Hinj Hu Hu' Hother Htext.
    apply (text_table_determines repr_float kind); auto.
Qed.

Lemma export_reads_back_witness :
  let out := mkDF 2 [("Age", [VInt 50; VInt 63]); ("Sex", [VInt 1; VInt 0]);
                     ("Prediction", [VInt 1; VInt 1]);
                     ("Probability", [VFloat 0.75; VFloat 0.75])] in
  frame (fst (batch_augment (mkModel 0 scoring_model)
                (with_frame (run_start process_start) two_patients)))
    = Some out /\
  to_csv (fun _ => "0.75") out
    = ("Age,Sex,Prediction,Probability" ++ LF ++ "50,1,1,0.75" ++ LF
       ++ "63,0,1,0.75" ++ LF)%string /\
  csv_records (encode_utf8 (to_csv (fun _ => "0.75") out))
    = Some [["Age"; "Sex"; "Prediction"; "Probability"];
            ["50"; "1"; "1"; "0.75"]; ["63"; "0"; "1"; "0.75"]].
Proof.
  cbv zeta. split; [reflexivity|]. split; [reflexivity|].
  destruct (export_reads_back (fun _ => "0.75") (mkModel 0 scoring_model)
              two_patients (with_frame (run_start process_start) two_patients)
              _ eq_refl eq_refl) as (out & Hout & _ & _ & Hread).
  injection Hout as <-. exact (proj1 (Hread eq_refl)).
Defined.

(** A name or a cell that holds commas, quotes or line breaks is read
    back as it was. *)
Example csv_records_quoted :
  let df := mkDF 1 [("a,b", [VStr ("say " ++ dquote ++ "hi" ++ dquote)]);
                    ("note", [VStr ("two" ++ LF ++ "lines")]);
                    ("gap", [VFloat nan])] in
  csv_records (to_csv format_1f df)
  = Some [["a,b"; "note"; "gap"];
          [("say " ++ dquote ++ "hi" ++ dquote)%string;
           ("two" ++ LF ++ "lines")%string; EmptyString]].
Proof. reflexivity. Qed.

(** C9 (as stated) fails: a model trained on labels that are strings of
    digits and one trained on integer labels give, for the same upload,
    augmented datasets that differ and whose exports are the same text; no
    way of parsing that text reproduces both. *)
Lemma export_loses_types :
  let a := mkDF 1 [("Age", [VInt 50]); ("Prediction", [VStr "1"])] in
  let b := mkDF 1 [("Age", [VInt 50]); ("Prediction", [VInt 1])] in
  frame (fst (batch_augment (mkModel 0 digit_label_model)
                (with_frame (run_start process_start) one_patient))) = Some a
  /\ frame (fst (batch_augment (mkModel 0 int_label_model)
                   (with_frame (run_start process_start) one_patient))) = Some b
  /\ a <> b
  /\ (forall repr_float : float -> string,
        to_csv repr_float a = to_csv repr_float b)
  /\ (forall (repr_float : float -> string)
             (parse : string -> option DataFrame),
        ~ (parse (encode_utf8 (to_csv repr_float a)) = Some a /\
           parse (encode_utf8 (to_csv repr_float b)) = Some b)).
Proof.
  cbv zeta. split; [reflexivity|]. split; [reflexivity|].
  split; [discriminate|]. split; [reflexivity|].
  intros repr_float parse [Ha Hb].
  change (to_csv repr_float
            (mkDF 1 [("Age", [VInt 50]); ("Prediction", [VInt 1])]))
    with (to_csv repr_float
            (mkDF 1 [("Age", [VInt 50]); ("Prediction", [VStr "1"])])) in Hb.
  rewrite Ha in Hb. discriminate.
Qed.

(* ===================================================================== *)
(** * Further properties of the code *)
(* ===================================================================== *)

(** ** Model Artifact Resolver, any file name *)

Lemma checked_paths_prefix (w : World) (paths : list string) :
  checked_paths w paths
    = firstn (List.length (checked_paths w paths)) paths.
Proof.
  induction paths as [|p rest IH]; [reflexivity|].
  cbn [checked_paths]. destruct (path_exists w p); cbn [List.length firstn].
  - reflexivity.
  - now rewrite <- IH.
Qed.

Lemma checked_paths_all (w : World) (paths : list string) :
  find (path_exists w) paths = None -> checked_paths w paths = paths.
Proof.
  induction paths as [|p rest IH]; [reflexivity|].
  cbn [find checked_paths]. destruct (path_exists w p); [discriminate|].
  intros H. now rewrite (IH H).
Qed.

Lemma checked_paths_last (w : World) (paths : list string) (p : string) :
  find (path_exists w) paths = Some p ->
  exists before, checked_paths w paths = before ++ [p] /\
                 forall q, In q before -> path_exists w q = false.
Proof.
  induction paths as [|a rest IH]; [discriminate|].
  cbn [find checked_paths]. destruct (path_exists w a) eqn:Ha.
  - intros [= <-]. exists []. split; [reflexivity|]. intros q [].
  - intros H. destruct (IH H) as (before & -> & Hb).
    exists (a :: before). split; [reflexivity|].
    intros q [<-|Hq]; auto.
Qed.

(** X1: for every file name, absolute or not, the resolver checks a
    prefix of the candidates as [os.path.join] builds them, at most four
    paths; what it returns is a candidate that exists, the last path it
    checked, every path checked before it being absent; it returns [None]
    only after all four were checked and found absent. *)
Theorem resolve_model_path_sound :
  forall (w : World) (filename : string) (s : State),
    exists (checked : list string) (r : option string),
      resolve_model_path w filename s
        = (with_io s (map io_exists checked), Ok r) /\
      List.length checked <= 4 /\
      checked = firstn (List.length checked) (possible_paths filename) /\
      (forall p, r = Some p ->
         In p (possible_paths filename) /\ path_exists w p = true /\
         exists before, checked = before ++ [p] /\
                        forall q, In q before -> path_exists w q = false) /\
      (r = None ->
         checked = possible_paths filename /\
         forall q, In q checked -> path_exists w q = false).
Proof.
  intros w filename s.
  exists (checked_paths w (possible_paths filename)),
         (find (path_exists w) (possible_paths filename)).
  split; [apply first_existing_spec|]. split; [|split; [|split]].
  - rewrite checked_paths_prefix, length_firstn. apply Nat.le_min_r.
  - apply checked_paths_prefix.
  - intros p Hp. destruct (find_some _ _ Hp) as [Hin Hex].
    repeat split; auto. now apply checked_paths_last.
  - intros Hnone. rewrite (checked_paths_all _ _ Hnone).
    split; [reflexivity|]. now apply find_none_iff.
Qed.

(** X2: for an absolute file name all four candidates are the name
    itself: the resolver returns the name after one check when it exists,
    and [None] after checking that same path four times when it does
    not. *)
Theorem resolve_model_path_absolute_name :
  forall (w : World) (filename : string) (s : State),
    Path.startswith Path.sep filename = true ->
    possible_paths filename = [filename; filename; filename; filename] /\
    resolve_model_path w filename s =
      if path_exists w filename
      then (with_io s [io_exists filename], Ok (Some filename))
      else (with_io s (repeat (io_exists filename) 4), Ok None).
Proof.
  intros w filename s Habs.
  assert (Hpaths : possible_paths filename
                   = [filename; filename; filename; filename]).
  { unfold possible_paths, Path.join. cbn [fold_left].
    unfold Path.join_step. now rewrite Habs. }
  split; [exact Hpaths|].
  unfold resolve_model_path. rewrite first_existing_spec, Hpaths.
  cbn [checked_paths find]. destruct (path_exists w filename); reflexivity.
Qed.

Lemma resolve_model_path_absolute_name_witness :
  resolve_model_path (world_with_files []) "/opt/best_model.pkl"
                     (run_start process_start)
  = (with_io (run_start process_start)
       (repeat (io_exists "/opt/best_model.pkl") 4), Ok None).
Proof.
  exact (proj2 (resolve_model_path_absolute_name (world_with_files [])
                  "/opt/best_model.pkl" (run_start process_start) eq_refl)).
Defined.

(** ** Model Loader, first call *)

(** X3: the first load in a process tries one file only, the first
    candidate that exists: it returns a predictor exactly when that file
    deserializes, and the predictor is a new object; no other candidate is
    ever deserialized, so a corrupt first candidate hides a sound later
    one. *)
Theorem load_model_first_candidate :
  forall (w : World) (s : State),
    cache (proc s) = None ->
    let paths := possible_paths model_filename in
    (forall m,
        snd (load_model w s) = Ok (Some m) <->
        exists p pr,
          find (path_exists w) paths = Some p /\ unpickle w p = Ok pr /\
          m = mkModel (next_id (proc s)) pr)
    /\ (forall path events,
          io (fst (load_model w s)) = io s ++ events ->
          In (io_load path) events ->
          find (path_exists w) paths = Some path).
Proof.
  intros w s Hempty paths. rewrite (load_model_miss w s Hempty). cbv zeta.
  fold paths.
  assert (Hchecks : forall path (l : list string),
             ~ In (io_load path) (map io_exists l)).
  { intros path l Hin. apply in_map_iff in Hin.
    destruct Hin as (q & Hq & _). discriminate. }
  destruct (find (path_exists w) paths) as [p|] eqn:Hfind.
  - destruct (unpickle w p) as [pr|e] eqn:Hload; cbn [fst snd io]; split.
    + intros m. split.
      * intros [= <-]. now exists p, pr.
      * intros (p' & pr' & [= <-] & Hpr & ->). rewrite Hload in Hpr.
        now injection Hpr as <-.
    + intros path events Heq Hin. apply app_inv_head in Heq. subst events.
      apply in_app_or in Hin. destruct Hin as [Hin|[[= ->]|[]]];
        [now apply Hchecks in Hin|reflexivity].
    + intros m. split; [discriminate|].
      intros (p' & pr' & [= <-] & Hpr & _). rewrite Hload in Hpr. discriminate.
    + intros path events Heq Hin. apply app_inv_head in Heq. subst events.
      apply in_app_or in Hin. destruct Hin as [Hin|[[= ->]|[]]];
        [now apply Hchecks in Hin|reflexivity].
  - cbn [fst snd io]. split.
    + intros m. split; [discriminate|]. intros (p' & pr' & [=] & _).
    + intros path events Heq Hin. apply app_inv_head in Heq. subst events.
      now apply Hchecks in Hin.
Qed.

Lemma load_model_first_candidate_witness :
  load_model masked_world (run_start process_start)
  = (mkState (mkProcess
                (Some (None, [load_error (ModelError "invalid load key")])) 0)
             [load_error (ModelError "invalid load key")]
             [io_exists "models/best_model.pkl"; io_load "models/best_model.pkl"]
             None, Ok None)
  /\ forall path events,
       io (fst (load_model masked_world (run_start process_start)))
         = [] ++ events ->
       In (io_load path) events ->
       find (path_exists masked_world) (possible_paths model_filename)
         = Some path.
Proof.
  split; [reflexivity|].
  exact (proj2 (load_model_first_candidate masked_world
                  (run_start process_start) eq_refl)).
Defined.

(** ** Manual Input Encoder, any labels *)

(** A dict lookup returns the value stored under the key, and raises
    exactly when the key is absent. *)
Lemma dict_getitem_spec (d : list (string * Z)) (key : string) :
  if dict_has d key
  then exists v, dict_getitem d key = Ok v /\ In (key, v) d
  else dict_getitem d key = Raise (KeyError key).
Proof.
  unfold dict_has. induction d as [|[k v] d IH]; [reflexivity|].
  cbn [existsb dict_getitem fst].
  destruct (String.eqb_spec key k) as [->|Hne]; cbn [orb].
  - exists v. split; [reflexivity|now left].
  - destruct (existsb _ d).
    + destruct IH as (v' & Hget & Hin). exists v'. split; [exact Hget|now right].
    + exact IH.
Qed.

(** The outcome of the encoder, by the first label its dicts lack. *)
Lemma encode_first_missing (f : Form) :
  match first_missing_label f with
  | Some label => encode f = Raise (KeyError label)
  | None => exists c, encode f = Ok c
  end.
Proof.
  unfold first_missing_label, encode, result_bind.
  pose proof (dict_getitem_spec cp_map (cp_disp f)) as Hcp.
  destruct (dict_has cp_map (cp_disp f)); cbn [negb];
    [destruct Hcp as (v1 & -> & _)|now rewrite Hcp].
  pose proof (dict_getitem_spec ecg_map (ecg_disp f)) as Hecg.
  destruct (dict_has ecg_map (ecg_disp f)); cbn [negb];
    [destruct Hecg as (v2 & -> & _)|now rewrite Hecg].
  pose proof (dict_getitem_spec slope_map (slope_disp f)) as Hsl.
  destruct (dict_has slope_map (slope_disp f)); cbn [negb];
    [destruct Hsl as (v3 & -> & _)|now rewrite Hsl].
  pose proof (dict_getitem_spec thal_map (thal_disp f)) as Hth.
  destruct (dict_has thal_map (thal_disp f)); cbn [negb];
    [destruct Hth as (v4 & -> & _)|now rewrite Hth].
  eauto.
Qed.

(** X4: the encoder raises exactly when a chest-pain, ECG, slope or
    thallium label is no key of its dict, and what it raises is the
    [KeyError] of the first such label in that order; the sex,
    fasting-sugar and angina labels never make it raise, whatever they
    are. *)
Theorem encode_key_error :
  forall f : Form,
    (forall label,
        first_missing_label f = Some label ->
        encode f = Raise (KeyError label))
    /\ (first_missing_label f = None -> exists c, encode f = Ok c)
    /\ (forall e,
          encode f = Raise e ->
          exists label,
            first_missing_label f = Some label /\ e = KeyError label).
Proof.
  intros f. pose proof (encode_first_missing f) as H.
  destruct (first_missing_label f) as [label|].
  - split; [now intros l [= <-]|]. split; [discriminate|].
    intros e He. rewrite H in He. injection He as <-. now exists label.
  - destruct H as [c Hc]. split; [discriminate|]. split; [now exists c|].
    intros e He. rewrite Hc in He. discriminate.
Qed.

Lemma encode_key_error_witness :
  encode unknown_label_form = Raise (KeyError "Crushing").
Proof.
  exact (proj1 (encode_key_error unknown_label_form) "Crushing" eq_refl).
Defined.




(** ** Manual tab *)

(** The manual tab, case by case. *)
Lemma manual_tab_eq (m : Model) (f : Form) (s : State) :
  manual_tab m f s =
    let s0 := with_ui s [manual_subheader] in
    match encode f with
    | Raise e => (s0, Raise e)
    | Ok c =>
        if submitted f then
          match single_predict m (mkDF 1 (input_data f c)) s0 with
          | (s1, Ok _) => (s1, Ok tt)
          | (s1, Raise e) => (with_ui s1 [prediction_error e], Ok tt)
          end
        else (s0, Ok tt)
    end.
Proof.
  unfold manual_tab. unfold bind at 1. rewrite emit_with_ui.
  unfold bind at 1, lift at 1. cbv zeta. fold manual_subheader.
  destruct (encode f) as [c|e]; [|reflexivity].
  destruct (submitted f); [|reflexivity].
  unfold bind at 1, lift at 1.
  change (pd_DataFrame (input_data f c)) with (Ok (mkDF 1 (input_data f c))).
  cbv iota beta. unfold try_except.
  destruct (single_predict m _ _) as [s1 [[]|e]]; reflexivity.
Qed.




(** X7: the calls the manual tab makes are fixed by the form and by the
    answer of [predict]: none when the form is not submitted or a label is
    no key of its dict; otherwise [predict] once on the encoded one-row
    frame, followed by [predict_proba] once on that same frame exactly
    when the model has it and [predict] answered with at least one
    class. *)
Theorem manual_tab_calls :
  forall (m : Model) (f : Form) (s : State),
    let calls := io (fst (manual_tab m f s)) in
    (submitted f = false -> calls = io s)
    /\ (forall e, encode f = Raise e -> calls = io s)
    /\ (forall c,
          encode f = Ok c ->
          submitted f = true ->
          let input_df := mkDF 1 (input_data f c) in
          let asked := io_predict (model_id m) input_df in
          let asked_proba := io_predict_proba (model_id m) input_df in
          (forall v rest,
              predict (model_obj m) input_df = Ok (v :: rest) ->
              predict_proba (model_obj m) <> None ->
              calls = io s ++ [asked; asked_proba])
          /\ (predict_proba (model_obj m) = None -> calls = io s ++ [asked])
          /\ (predict (model_obj m) input_df = Ok [] -> calls = io s ++ [asked])
          /\ (forall e,
                predict (model_obj m) input_df = Raise e ->
                calls = io s ++ [asked])).
Proof.
  intros m f s calls. subst calls. rewrite manual_tab_eq.
  split; [|split].
  - intros Hsub. cbv zeta.
    destruct (encode f) as [c|e]; [rewrite Hsub|]; reflexivity.
  - intros e ->. reflexivity.
  - intros c Henc Hsub input_df asked asked_proba. cbv zeta.
    rewrite Henc, Hsub. fold input_df.
    rewrite single_predict_eq. cbv zeta. fold asked.
    rewrite single_proba_eq. fold asked_proba.
    split; [|split; [|split]].
    + intros v rest -> Hpp. cbn [getitem nth_error].
      destruct (predict_proba (model_obj m)) as [pp|]; [|congruence].
      destruct (result_bind _ _); cbn; now rewrite <- app_assoc.
    + intros ->. destruct (predict (model_obj m) input_df) as [[|v rest]|e];
        reflexivity.
    + intros ->. reflexivity.
    + intros e ->. reflexivity.
Qed.

Lemma manual_tab_calls_witness :
  let input_df := feature_record
                    (mkSelection 50 Male TypicalAngina 120 200 FbsFalse
                                 EcgNormal 150 AnginaNo 0 Upsloping 0 ThalNormal) in
  io (fst (manual_tab (mkModel 0 scoring_model) default_form
             (run_start process_start)))
  = [io_predict 0 input_df; io_predict_proba 0 input_df].
Proof.
  exact (proj1 (proj2 (proj2 (manual_tab_calls (mkModel 0 scoring_model)
                                default_form (run_start process_start)))
                      (mkCodes 1 1 0 0 0 1 3) eq_refl eq_refl)
               (VInt 1) [] eq_refl (fun H => ltac:(discriminate H))).
Defined.

(** ** Batch tab *)

(** The batch tab on a file that cannot be read. *)
Lemma batch_tab_unreadable (repr_float : float -> string) (m : Model)
    (e : exn) (pressed : bool) (s : State) :
  batch_tab repr_float m (mkUpload (Some (Raise e)) pressed) s
  = (with_ui s [st_subheader "Batch Prediction"; read_error], Ok tt).
Proof.
  unfold batch_tab; cbn [uploaded_file].
  unfold bind at 1. rewrite emit_with_ui. unfold try_except, bind, lift.
  unfold emit, with_ui, read_error; cbn. now rewrite <- app_assoc.
Qed.

(** X8: a file that [pd.read_csv] cannot read is reported by the fixed
    message alone, the same for every cause; the tab returns normally, the
    model is not called, the process and [df] are left as they were, and
    no preview, result or download is shown, whether or not the button
    was pressed. *)
Theorem batch_read_error :
  forall (repr_float : float -> string) (m : Model) (e : exn) (pressed : bool)
         (s : State),
    batch_tab repr_float m (mkUpload (Some (Raise e)) pressed) s
    = (mkState (proc s)
         (ui s ++ [st_subheader "Batch Prediction";
                   st_error "Could not read file."])
         (io s) (frame s), Ok tt).
Proof.
  intros repr_float m e pressed s. now rewrite batch_tab_unreadable.
Qed.

(** The batch tab when the button is not pressed, or no file is there. *)
Lemma batch_tab_idle (repr_float : float -> string) (m : Model) (u : Upload)
    (s : State) :
  start_batch u = false \/ uploaded_file u = None ->
  batch_tab repr_float m u s =
    match uploaded_file u with
    | None => (with_ui s [st_subheader "Batch Prediction"], Ok tt)
    | Some (Raise _) =>
        (with_ui s [st_subheader "Batch Prediction"; read_error], Ok tt)
    | Some (Ok df) => (with_frame (with_ui s (batch_preview df)) df, Ok tt)
    end.
Proof.
  intros Hidle. destruct u as [[[df|e]|] pressed]; cbn [uploaded_file].
  - destruct Hidle as [Hp|Hf]; [|discriminate]. cbn [start_batch] in Hp.
    subst pressed. unfold batch_tab; cbn [uploaded_file start_batch].
    unfold bind at 1. rewrite emit_with_ui.
    unfold try_except, bind, lift, put_df, emit, ret, with_ui, with_frame,
      batch_preview; cbn. now rewrite <- !app_assoc.
  - apply batch_tab_unreadable.
  - reflexivity.
Qed.

(** X9: unless a file was uploaded and the button pressed, the batch tab
    never calls the model and never offers a download; it returns
    normally and leaves the process alone. *)
Theorem batch_tab_needs_button :
  forall (repr_float : float -> string) (m : Model) (u : Upload) (s : State),
    start_batch u = false \/ uploaded_file u = None ->
    exists shown,
      batch_tab repr_float m u s
        = (mkState (proc s) (ui s ++ shown) (io s)
                   (match uploaded_file u with
                    | Some (Ok df) => Some df
                    | _ => frame s
                    end), Ok tt) /\
      existsb is_download shown = false.
Proof.
  intros repr_float m u s Hidle. rewrite (batch_tab_idle _ _ _ _ Hidle).
  destruct (uploaded_file u) as [[df|e]|].
  - exists (batch_preview df). split; reflexivity.
  - exists [st_subheader "Batch Prediction"; read_error]. split; reflexivity.
  - exists [st_subheader "Batch Prediction"]. split; reflexivity.
Qed.

Lemma batch_tab_needs_button_witness :
  exists shown,
    batch_tab format_1f (mkModel 0 scoring_model)
              (mkUpload (Some (Ok two_patients)) false)
              (run_start process_start)
      = (mkState process_start ([] ++ shown) [] (Some two_patients), Ok tt) /\
    existsb is_download shown = false.
Proof.
  exact (batch_tab_needs_button format_1f (mkModel 0 scoring_model)
           (mkUpload (Some (Ok two_patients)) false)
           (run_start process_start) (or_introl eq_refl)).
Defined.

(** X11: when the model answers with a number of classes other than the
    number of rows of a frame that has rows, the assignment of the
    [Prediction] column raises: the tab reports the two lengths with the
    hint, and the frame stays exactly as uploaded, no column added. *)
Theorem batch_length_mismatch :
  forall (repr_float : float -> string) (m : Model) (df : DataFrame)
         (preds : list pyval) (s : State),
    predict (model_obj m) df = Ok preds ->
    0 < df_index df ->
    List.length preds <> df_index df ->
    batch_tab repr_float m (mkUpload (Some (Ok df)) true) s =
      (mkState (proc s)
         (ui s ++ batch_preview df
          ++ batch_report (length_mismatch (List.length preds) (df_index df)))
         (io s ++ [io_predict (model_id m) df]) (Some df), Ok tt).
Proof.
  intros repr_float m df preds s Hpreds Hrows Hlen.
  set (ready := with_frame (with_ui s (batch_preview df)) df).
  assert (Hraise : batch_augment m ready
                   = (with_io ready [io_predict (model_id m) df],
                      Raise (length_mismatch (List.length preds) (df_index df)))).
  { rewrite (batch_augment_eq m df ready eq_refl). cbv zeta. rewrite Hpreds.
    unfold setitem.
    destruct (Nat.eqb_spec (df_index df) 0) as [H0|_]; [lia|]. cbn [andb].
    destruct (Nat.eqb_spec (List.length preds) (df_index df)) as [He|_];
      [contradiction|reflexivity]. }
  unfold batch_report. rewrite batch_tab_started. fold ready.
  rewrite (batch_analysis_eq repr_float m df ready eq_refl), Hraise.
  unfold with_ui, with_io, ready, with_frame, batch_report; cbn.
  now rewrite <- !app_assoc.
Qed.

Lemma batch_length_mismatch_witness :
  batch_tab format_1f (mkModel 0 short_model)
            (mkUpload (Some (Ok two_patients)) true) (run_start process_start)
  = (mkState process_start
       (batch_preview two_patients
        ++ [st_error "Error: Length of values (1) does not match length of index (2)";
            batch_hint])
       [io_predict 0 two_patients] (Some two_patients), Ok tt).
Proof.
  exact (batch_length_mismatch format_1f (mkModel 0 short_model) two_patients
           [VInt 1] (run_start process_start) eq_refl
           (le_S 1 1 (le_n 1)) (fun H => O_S 0 (eq_add_S _ _ H))).
Defined.

(** ** The whole run *)

(** A load never raises: it returns what the slot holds afterwards, and
    leaves the frame alone. *)
Lemma load_model_returns (w : World) (s : State) :
  exists s1 r msgs,
    load_model w s = (s1, Ok r) /\ cache (proc s1) = Some (r, msgs) /\
    frame s1 = frame s.
Proof.
  destruct (cache (proc s)) as [[r msgs]|] eqn:Hc.
  - exists (with_ui s msgs), r, msgs.
    split; [now apply load_model_hit|]. split; [exact Hc|reflexivity].
  - rewrite (load_model_miss w s Hc). cbv zeta.
    destruct (find _ _) as [p|]; [destruct (unpickle w p) as [pr|e]|];
      eexists _, _, _; (split; [reflexivity|split; reflexivity]).
Qed.

(** A run, by what the load returned. *)
Lemma main_eq (repr_float : float -> string) (w : World) (f : Form)
    (u : Upload) (s : State) :
  main repr_float w f u s =
    match load_model w (with_ui s [app_title]) with
    | (s1, Ok None) => (with_ui s1 [model_not_found], Ok tt)
    | (s1, Ok (Some m)) => (manual_tab m f ;;; batch_tab repr_float m u) s1
    | (s1, Raise e) => (s1, Raise e)
    end.
Proof.
  unfold main. unfold bind at 1. rewrite emit_with_ui. unfold bind at 1.
  destruct (load_model w _) as [s1 [[m|]|e]]; reflexivity.
Qed.

Lemma returns_try (c : M unit) (h : exn -> M unit) :
  (forall e, returns (h e)) -> returns (try_except c h).
Proof.
  intros Hh s. unfold try_except. destruct (c s) as [s' [[]|e]].
  - now exists s'.
  - apply Hh.
Qed.

Lemma returns_emit (e : ui_event) : returns (emit e).
Proof. intros s. eexists. reflexivity. Qed.

Lemma returns_seq (c k : M unit) :
  returns c -> returns k -> returns (c ;;; k).
Proof.
  intros Hc Hk s. unfold bind. destruct (Hc s) as [s' ->]. apply Hk.
Qed.

(** The batch tab never raises. *)
Lemma returns_batch_tab (repr_float : float -> string) (m : Model)
    (u : Upload) :
  returns (batch_tab repr_float m u).
Proof.
  unfold batch_tab. apply returns_seq; [apply returns_emit|].
  destruct (uploaded_file u).
  - apply returns_try. intros _. apply returns_emit.
  - intros s. now exists s.
Qed.

(** The manual tab raises exactly the [KeyError] of the encoder. *)
Lemma manual_tab_outcome (m : Model) (f : Form) (s : State) :
  snd (manual_tab m f s) =
    match encode f with
    | Ok _ => Ok tt
    | Raise e => Raise e
    end.
Proof.
  rewrite manual_tab_eq. cbv zeta. destruct (encode f); [|reflexivity].
  destruct (submitted f); [|reflexivity].
  destruct (single_predict m _ _) as [s1 [[]|e]]; reflexivity.
Qed.

(** X12: a run of the script ends normally or with the [KeyError] of the
    first form label (chest pain, ECG, slope, thallium) that is no key of
    its dict, and with nothing else: no failure of the loader, of the
    predictor or of reading or scoring an upload escapes. With every such
    label in its dict the run always ends normally. *)
Theorem script_run_outcome :
  forall (repr_float : float -> string) (w : World) (f : Form) (u : Upload)
         (p : Process),
    (snd (script_run repr_float w f u p) = Ok tt \/
     exists label,
       first_missing_label f = Some label /\
       snd (script_run repr_float w f u p) = Raise (KeyError label))
    /\ (first_missing_label f = None ->
        snd (script_run repr_float w f u p) = Ok tt).
Proof.
  intros repr_float w f u p. unfold script_run. rewrite main_eq.
  destruct (load_model_returns w (with_ui (run_start p) [app_title]))
    as (s1 & r & msgs & -> & _ & _).
  destruct r as [m|]; [|split; [left|]; reflexivity].
  assert (Hout : snd ((manual_tab m f ;;; batch_tab repr_float m u) s1) =
                 match encode f with Ok _ => Ok tt | Raise e => Raise e end).
  { unfold bind. pose proof (manual_tab_outcome m f s1) as Hm.
    destruct (manual_tab m f s1) as [s2 [[]|e]]; cbn [snd] in Hm.
    - destruct (returns_batch_tab repr_float m u s2) as [s3 ->].
      destruct (encode f); [reflexivity|discriminate].
    - exact Hm. }
  rewrite Hout. pose proof (encode_first_missing f) as Hkey.
  destruct (first_missing_label f) as [label|].
  - rewrite Hkey. split; [right; now exists label|discriminate].
  - destruct Hkey as [c ->]. split; [now left|reflexivity].
Qed.

Lemma script_run_outcome_witness :
  snd (script_run format_1f
         (world_with_model ["models/best_model.pkl"] broken_model)
         default_form (mkUpload (Some (Ok missing_sex)) true) process_start)
  = Ok tt.
Proof.
  exact (proj2 (script_run_outcome format_1f
                  (world_with_model ["models/best_model.pkl"] broken_model)
                  default_form (mkUpload (Some (Ok missing_sex)) true)
                  process_start) eq_refl).
Defined.

(** X13: when the model is available and a form label is no key of its
    dict, the run stops in the manual tab: the page ends with the
    subheader of that tab, the predictor is not called, and the batch tab
    is not reached, so an upload is neither read nor scored, whether or
    not the form was submitted. *)
Theorem script_run_key_error :
  forall (repr_float : float -> string) (w : World) (f : Form) (u : Upload)
         (p : Process) (s1 : State) (m : Model) (label : string),
    load_model w (with_ui (run_start p) [app_title]) = (s1, Ok (Some m)) ->
    first_missing_label f = Some label ->
    script_run repr_float w f u p
      = (with_ui s1 [manual_subheader], Raise (KeyError label)).
Proof.
  intros repr_float w f u p s1 m label Hload Hmiss.
  unfold script_run. rewrite main_eq, Hload. unfold bind.
  rewrite manual_tab_eq. cbv zeta.
  pose proof (encode_first_missing f) as Hkey. rewrite Hmiss in Hkey.
  now rewrite Hkey.
Qed.

Lemma script_run_key_error_witness :
  script_run format_1f
    (world_with_model ["models/best_model.pkl"] scoring_model)
    unknown_label_form (mkUpload (Some (Ok two_patients)) true) process_start
  = (mkState (mkProcess (Some (Some (mkModel 0 scoring_model), [])) 1)
       [app_title; manual_subheader]
       [io_exists "models/best_model.pkl"; io_load "models/best_model.pkl"]
       None, Raise (KeyError "Crushing")).
Proof.
  exact (script_run_key_error format_1f
           (world_with_model ["models/best_model.pkl"] scoring_model)
           unknown_label_form (mkUpload (Some (Ok two_patients)) true)
           process_start _ (mkModel 0 scoring_model) "Crushing"
           eq_refl eq_refl).
Defined.

(** *** File access over the life of a process *)

Lemma filter_load_checks (l : list string) :
  filter is_load (map io_exists l) = [].
Proof. induction l as [|p l IH]; [reflexivity|exact IH]. Qed.

Lemma filter_load_inference (events : list io_event) :
  existsb file_io events = false -> filter is_load events = [].
Proof.
  induction events as [|e events IH]; [reflexivity|].
  cbn [existsb filter]. intros H. apply orb_false_iff in H.
  destruct H as [He Hrest]. rewrite (IH Hrest).
  destruct e; cbn in *; try reflexivity; discriminate.
Qed.

(** Both tabs together only call the predictor. *)
Lemma inference_only_tabs (repr_float : float -> string) (m : Model)
    (f : Form) (u : Upload) :
  inference_only (manual_tab m f ;;; batch_tab repr_float m u).
Proof.
  apply inference_only_bind; [apply inference_only_manual_tab|].
  intros _. apply inference_only_batch_tab.
Qed.

(** X14: a process touches the file system in its first run only. That
    run fills the slot, whatever the load returned, deserializes at most
    one file and builds at most one object; every later run, in whatever
    world and with whatever inputs, leaves the process as it is and
    neither checks a path nor deserializes a file. *)
Theorem one_load_per_process :
  forall (repr_float : float -> string) (first : RunInput) (p : Process),
    cache p = None ->
    let after := fst (script_run_on repr_float first p) in
    (exists r msgs, cache (proc after) = Some (r, msgs)) /\
    List.length (filter is_load (io after)) <= 1 /\
    next_id (proc after) <= S (next_id p) /\
    forall (later : list RunInput) (next : RunInput),
      script_runs repr_float later (proc after) = proc after /\
      existsb file_io
        (io (fst (script_run_on repr_float next (proc after)))) = false.
Proof.
  intros repr_float first p Hempty after.
  assert (Hfirst : (exists r msgs, cache (proc after) = Some (r, msgs)) /\
                   List.length (filter is_load (io after)) <= 1 /\
                   next_id (proc after) <= S (next_id p)).
  { unfold after, script_run_on, script_run. rewrite main_eq.
    rewrite (load_model_miss (run_world first)
               (with_ui (run_start p) [app_title]) Hempty).
    cbv zeta. cbn [proc io with_ui run_start next_id app_nil_l].
    set (checks := map io_exists
                       (checked_paths (run_world first)
                                      (possible_paths model_filename))).
    assert (Htabs : forall (m : Model) (s1 : State),
               let s2 := fst ((manual_tab m (run_form first) ;;;
                               batch_tab repr_float m (run_upload first)) s1) in
               proc s2 = proc s1 /\
               filter is_load (io s2) = filter is_load (io s1)).
    { intros m s1 s2.
      destruct (inference_only_tabs repr_float m (run_form first)
                  (run_upload first) s1) as [Hp (events & Hio & Hev)].
      fold s2 in Hp, Hio. split; [exact Hp|].
      rewrite Hio, filter_app, (filter_load_inference _ Hev).
      apply app_nil_r. }
    destruct (find _ _) as [path|];
      [destruct (unpickle (run_world first) path) as [pr|e]|].
    - match goal with
      | |- context [fst (?c ?s1)] =>
          destruct (Htabs (mkModel (next_id p) pr) s1) as [Hp Hio]
      end.
      cbv zeta in Hp, Hio. rewrite Hp, Hio. cbn [proc io cache next_id].
      rewrite !filter_app. unfold checks. rewrite filter_load_checks. cbn.
      split; [eauto|]. split; lia.
    - cbn [fst proc io cache next_id with_ui].
      rewrite !filter_app. unfold checks. rewrite filter_load_checks. cbn.
      split; [eauto|]. split; lia.
    - cbn [fst proc io cache next_id with_ui].
      rewrite !filter_app. unfold checks. rewrite filter_load_checks. cbn.
      split; [eauto|]. split; lia. }
  destruct Hfirst as ((r & msgs & Hslot) & Hloads & Hid).
  repeat split; eauto.
  - now apply (script_runs_cached repr_float later _ (r, msgs)).
  - unfold script_run_on, script_run.
    destruct (main_cached repr_float (run_world next) (run_form next)
                (run_upload next) (run_start (proc after)) (r, msgs) Hslot)
      as [_ (events & Hio & Hev)].
    rewrite Hio. exact Hev.
Qed.

Lemma one_load_per_process_witness :
  let first := mkRun masked_world default_form no_upload in
  let sound := mkRun (world_with_model ["models/best_model.pkl"] scoring_model)
                     default_form no_upload in
  let after := fst (script_run_on format_1f first process_start) in
  filter is_load (io after) = [io_load "models/best_model.pkl"] /\
  script_runs format_1f [sound; sound] (proc after) = proc after /\
  existsb file_io (io (fst (script_run_on format_1f sound (proc after))))
    = false.
Proof.
  cbv zeta. split; [reflexivity|].
  exact (proj2 (proj2 (proj2 (one_load_per_process format_1f
           (mkRun masked_world default_form no_upload) process_start eq_refl)))
         [mkRun (world_with_model ["models/best_model.pkl"] scoring_model)
                default_form no_upload;
          mkRun (world_with_model ["models/best_model.pkl"] scoring_model)
                default_form no_upload]
         (mkRun (world_with_model ["models/best_model.pkl"] scoring_model)
                default_form no_upload)).
Defined.

(** *** The instance that serves a run *)

Lemma io_within_quiet (P : io_event -> bool) {A} (c : M A) :
  (forall s, io (fst (c s)) = io s) -> io_within P c.
Proof. intros H s. exists []. rewrite app_nil_r. auto. Qed.

Lemma io_within_call (P : io_event -> bool) (e : io_event) :
  P e = true -> io_within P (call e).
Proof.
  intros He s. exists [e]. split; [reflexivity|]. cbn. now rewrite He.
Qed.

Lemma io_within_bind (P : io_event -> bool) {A B} (c : M A) (k : A -> M B) :
  io_within P c -> (forall a, io_within P (k a)) -> io_within P (bind c k).
Proof.
  intros Hc Hk s. unfold bind. destruct (Hc s) as (ev & Hio & Hev).
  destruct (c s) as [s' [a|e]]; cbn [fst] in *.
  - destruct (Hk a s') as (ev' & Hio' & Hev'). exists (ev ++ ev').
    rewrite Hio', Hio, app_assoc, forallb_app, Hev, Hev'. auto.
  - exists ev. auto.
Qed.

Lemma io_within_try (P : io_event -> bool) {A} (c : M A) (h : exn -> M A) :
  io_within P c -> (forall e, io_within P (h e)) ->
  io_within P (try_except c h).
Proof.
  intros Hc Hh s. unfold try_except. destruct (Hc s) as (ev & Hio & Hev).
  destruct (c s) as [s' [a|e]]; cbn [fst] in *.
  - exists ev. auto.
  - destruct (Hh e s') as (ev' & Hio' & Hev'). exists (ev ++ ev').
    rewrite Hio', Hio, app_assoc, forallb_app, Hev, Hev'. auto.
Qed.

(** Breaks a statement into its calls and its quiet statements. *)
Ltac io_within_steps :=
  repeat first
    [ apply io_within_bind; [|intros ?]
    | apply io_within_try; [|intros ?]
    | apply io_within_call; cbn; apply Nat.eqb_refl
    | match goal with
      | |- io_within _ (match ?x with _ => _ end) => destruct x
      | |- io_within _ (if ?x then _ else _) => destruct x
      | |- io_within _ get_df =>
          apply io_within_quiet; intros s; unfold get_df; now destruct (frame s)
      end
    | apply io_within_quiet; intros ?; reflexivity ].

Lemma io_within_manual_tab (m : Model) (f : Form) :
  io_within (calls_model (model_id m)) (manual_tab m f).
Proof.
  unfold manual_tab, single_predict, single_proba. io_within_steps.
Qed.

Lemma io_within_batch_tab (repr_float : float -> string) (m : Model)
    (u : Upload) :
  io_within (calls_model (model_id m)) (batch_tab repr_float m u).
Proof.
  unfold batch_tab, batch_analysis, batch_augment, df_setitem.
  io_within_steps.
Qed.

(** X15: in a run of a process whose slot holds a predictor, every call
    that leaves the script is a call of [predict] or [predict_proba] of
    that very instance: both tabs are served by the cached object and by
    nothing else. *)
Theorem run_served_by_cached_instance :
  forall (repr_float : float -> string) (w : World) (f : Form) (u : Upload)
         (p : Process) (m : Model) (msgs : list ui_event),
    cache p = Some (Some m, msgs) ->
    forallb (calls_model (model_id m))
            (io (fst (script_run repr_float w f u p))) = true.
Proof.
  intros repr_float w f u p m msgs Hslot. unfold script_run.
  rewrite (main_hit repr_float w f u (run_start p) (Some m) msgs Hslot).
  destruct (io_within_bind (calls_model (model_id m)) (manual_tab m f)
              (fun _ => batch_tab repr_float m u)
              (io_within_manual_tab m f)
              (fun _ => io_within_batch_tab repr_float m u)
              (with_ui (with_ui (run_start p) [app_title]) msgs))
    as (events & Hio & Hev).
  rewrite Hio. exact Hev.
Qed.

Lemma run_served_by_cached_instance_witness :
  let p := mkProcess (Some (Some (mkModel 7 scoring_model), [])) 8 in
  forallb (calls_model 7)
          (io (fst (script_run format_1f (world_with_files []) default_form
                      (mkUpload (Some (Ok two_patients)) true) p))) = true.
Proof.
  exact (run_served_by_cached_instance format_1f (world_with_files [])
           default_form (mkUpload (Some (Ok two_patients)) true)
           (mkProcess (Some (Some (mkModel 7 scoring_model), [])) 8)
           (mkModel 7 scoring_model) [] eq_refl).
Defined.

(** ** Probability arrays with fewer than two columns *)

(** X16: in the batch tab, when the probability array has fewer than two
    columns (a model that knows one class only), taking column 1 raises an
    [IndexError] on axis 1: the tab reports it with the hint and offers no
    download, and the frame is left with the [Prediction] column already
    assigned and no [Probability] column. *)
Theorem batch_narrow_probabilities :
  forall (repr_float : float -> string) (m : Model)
         (pp : DataFrame -> result ndarray2) (df df1 : DataFrame)
         (preds : list pyval) (arr : ndarray2) (s : State),
    predict (model_obj m) df = Ok preds ->
    setitem df "Prediction" preds = Ok df1 ->
    predict_proba (model_obj m) = Some pp ->
    pp df1 = Ok arr ->
    arr_ncols arr <= 1 ->
    batch_tab repr_float m (mkUpload (Some (Ok df)) true) s =
      (mkState (proc s)
         (ui s ++ batch_preview df
          ++ batch_report (IndexError 1 1 (arr_ncols arr)))
         (io s ++ [io_predict (model_id m) df;
                   io_predict_proba (model_id m) df1])
         (Some df1), Ok tt).
Proof.
  intros repr_float m pp df df1 preds arr s Hpreds Hset Hpp Harr Hcols.
  set (ready := with_frame (with_ui s (batch_preview df)) df).
  rewrite batch_tab_started. fold ready.
  rewrite (batch_analysis_eq repr_float m df ready eq_refl).
  rewrite (batch_augment_eq m df ready eq_refl). cbv zeta.
  rewrite Hpreds, Hset, Hpp, Harr. unfold arr_col.
  destruct (Nat.ltb_spec 1 (arr_ncols arr)) as [Hlt|_]; [lia|].
  unfold with_ui, with_io, with_frame, ready, batch_report; cbn.
  now rewrite <- !app_assoc.
Qed.

Lemma batch_narrow_probabilities_witness :
  batch_tab format_1f (mkModel 0 one_class_model)
            (mkUpload (Some (Ok one_patient)) true) (run_start process_start)
  = (mkState process_start
       (batch_preview one_patient
        ++ [st_error "Error: index 1 is out of bounds for axis 1 with size 1";
            batch_hint])
       [io_predict 0 one_patient;
        io_predict_proba 0 (mkDF 1 [("Age", [VInt 50]);
                                    ("Prediction", [VInt 0])])]
       (Some (mkDF 1 [("Age", [VInt 50]); ("Prediction", [VInt 0])])), Ok tt).
Proof.
  exact (batch_narrow_probabilities format_1f (mkModel 0 one_class_model) _
           one_patient _ [VInt 0] (mkArr 1 [[1]%float])
           (run_start process_start) eq_refl eq_refl eq_refl eq_refl
           (le_n 1)).
Defined.

(** X17: in the manual tab, when the probabilities of the record have
    fewer than two entries, reading entry 1 raises an [IndexError]: the
    tab reports it as a prediction error and shows neither risk nor
    verdict, although [predict] had answered. *)
Theorem manual_narrow_probabilities :
  forall (m : Model) (pp : DataFrame -> result ndarray2) (f : Form)
         (c : Codes) (v : pyval) (rest : list pyval) (arr : ndarray2)
         (row : list float) (s : State),
    encode f = Ok c ->
    submitted f = true ->
    let input_df := mkDF 1 (input_data f c) in
    predict (model_obj m) input_df = Ok (v :: rest) ->
    predict_proba (model_obj m) = Some pp ->
    pp input_df = Ok arr ->
    nth_error (arr_rows arr) 0 = Some row ->
    List.length row <= 1 ->
    manual_tab m f s =
      (mkState (proc s)
         (ui s ++ [manual_subheader;
                   prediction_error (IndexError 1 0 (List.length row))])
         (io s ++ [io_predict (model_id m) input_df;
                   io_predict_proba (model_id m) input_df])
         (frame s), Ok tt).
Proof.
  intros m pp f c v rest arr row s Henc Hsub input_df Hpred Hpp Harr Hrow Hlen.
  rewrite manual_tab_eq. cbv zeta. rewrite Henc, Hsub. fold input_df.
  rewrite single_predict_eq. cbv zeta. rewrite Hpred. cbn [getitem nth_error].
  rewrite single_proba_eq, Hpp, Harr.
  unfold result_bind, arr_row, getitem. rewrite Hrow.
  assert (Hnone : nth_error row 1 = None) by (apply nth_error_None; lia).
  rewrite Hnone. unfold with_ui, with_io; cbn. now rewrite <- !app_assoc.
Qed.

Lemma manual_narrow_probabilities_witness :
  manual_tab (mkModel 0 one_class_model) default_form (run_start process_start)
  = (mkState process_start
       [manual_subheader;
        st_error "Prediction Error: index 1 is out of bounds for axis 0 with size 1"]
       [io_predict 0 (mkDF 1 (input_data default_form (mkCodes 1 1 0 0 0 1 3)));
        io_predict_proba 0
          (mkDF 1 (input_data default_form (mkCodes 1 1 0 0 0 1 3)))]
       None, Ok tt).
Proof.
  exact (manual_narrow_probabilities (mkModel 0 one_class_model) _ default_form
           (mkCodes 1 1 0 0 0 1 3) (VInt 0) [] (mkArr 1 [[1]%float]) [1]%float
           (run_start process_start) eq_refl eq_refl eq_refl eq_refl eq_refl
           eq_refl (le_n 1)).
Defined.

(** ** The header of the download *)

Lemma concat_nonempty_field (fields : list string) :
  existsb (fun f => negb (Path.is_empty f)) fields = true ->
  Path.is_empty (String.concat "," fields) = false.
Proof.
  induction fields as [|f rest IH]; [discriminate|].
  destruct rest as [|g rest].
  - cbn. rewrite orb_false_r. now intros ->%negb_true_iff.
  - intros _.
    change (String.concat "," (f :: g :: rest))
      with (f ++ String ","%char (String.concat "," (g :: rest)))%string.
    now destruct f.
Qed.

(** The names of the columns after a successful scoring of a frame that
    has rows and none of the new names. *)
Lemma batch_augment_names (m : Model) (df : DataFrame) (s s' : State) :
  frame s = Some df ->
  0 < df_index df ->
  has_column "Prediction" df = false ->
  (predict_proba (model_obj m) <> None ->
   has_column "Probability" df = false) ->
  batch_augment m s = (s', Ok tt) ->
  exists out,
    frame s' = Some out /\
    column_names out =
      column_names df
      ++ "Prediction" :: match predict_proba (model_obj m) with
                         | Some _ => ["Probability"]
                         | None => []
                         end.
Proof.
  intros Hdf Hrows Hpred Hprob.
  rewrite (batch_augment_eq m df s Hdf). cbv zeta.
  destruct (predict (model_obj m) df) as [preds|e]; [|discriminate].
  destruct (setitem df "Prediction" preds) as [df1|e] eqn:Hset1; [|discriminate].
  destruct (setitem_fresh df df1 _ preds Hrows Hpred Hset1) as [-> _].
  destruct (predict_proba (model_obj m)) as [pp|].
  - destruct (pp _) as [arr|e]; [|discriminate].
    destruct (arr_col arr 1) as [col|e]; [|discriminate].
    destruct (setitem _ "Probability" (map VFloat col)) as [df2|e] eqn:Hset2;
      [|discriminate].
    intros [= <-].
    apply setitem_fresh in Hset2; cbn [df_index df_columns]; [|exact Hrows|].
    + destruct Hset2 as [-> _]. eexists. split; [reflexivity|].
      unfold column_names; cbn [df_columns]. rewrite !map_app, <- app_assoc.
      reflexivity.
    + rewrite has_column_app by discriminate. apply Hprob. discriminate.
  - intros [= <-]. eexists. split; [reflexivity|].
    unfold column_names; cbn [df_columns]. now rewrite map_app.
Qed.

(** X18: after a successful scoring of an upload that has rows, column
    names free of commas, quotes and line breaks, and none of the new
    names, the downloaded CSV starts with a header line made of the
    uploaded column names, in order, followed by [Prediction] and, when
    the model estimates probabilities, [Probability]; no index column
    precedes them. *)
Theorem export_header_after_scoring :
  forall (repr_float : float -> string) (m : Model) (df : DataFrame)
         (s s' : State),
    frame s = Some df ->
    0 < df_index df ->
    has_column "Prediction" df = false ->
    (predict_proba (model_obj m) <> None ->
     has_column "Probability" df = false) ->
    forallb (fun n => negb (has_special n)) (column_names df) = true ->
    batch_augment m s = (s', Ok tt) ->
    exists out body,
      frame s' = Some out /\
      to_csv repr_float out =
        (String.concat ","
           (column_names df
            ++ "Prediction" :: match predict_proba (model_obj m) with
                               | Some _ => ["Probability"]
                               | None => []
                               end)
         ++ LF ++ body)%string.
Proof.
  intros repr_float m df s s' Hdf Hrows Hpred Hprob Hplain Hok.
  destruct (batch_augment_names m df s s' Hdf Hrows Hpred Hprob Hok)
    as (out & Hout & Hnames).
  exists out. eexists. split; [exact Hout|].
  unfold to_csv. rewrite Hnames.
  set (names := column_names df ++ _).
  assert (Hp : forallb (fun n => negb (has_special n)) names = true).
  { unfold names. rewrite forallb_app, Hplain.
    now destruct (predict_proba (model_obj m)). }
  rewrite writerow_nonempty; rewrite (quote_minimal_plain _ Hp).
  - rewrite append_assoc. reflexivity.
  - apply concat_nonempty_field. unfold names. rewrite existsb_app.
    apply orb_true_iff. right. reflexivity.
Qed.

Lemma export_header_after_scoring_witness :
  exists out body,
    frame (fst (batch_augment (mkModel 0 scoring_model)
                  (with_frame (run_start process_start) two_patients)))
      = Some out /\
    to_csv format_1f out
      = (String.concat "," (["Age"; "Sex"] ++ ["Prediction"; "Probability"])
         ++ LF ++ body)%string.
Proof.
  exact (export_header_after_scoring format_1f (mkModel 0 scoring_model)
           two_patients (with_frame (run_start process_start) two_patients) _
           eq_refl (le_S 1 1 (le_n 1)) eq_refl (fun _ => eq_refl) eq_refl
           eq_refl).
Defined.
